(** * Library management system: a shallow embedding of [main.py]

    The Python program keeps three kinds of objects: [Book], [User] and one
    [Library].  Books and users are mutable objects that are shared: the same
    [Book] object is the value of an entry of [Library.books] and an element
    of [User.borrowed_books], and [Book.borrower] points back at a [User]
    object.  The embedding therefore keeps an explicit object store (a heap of
    books and a heap of users, addressed by object identity) and threads it
    through every method.

    Console output ([print]) is not part of the model.

    The file has three parts: the model of the program, the vocabulary in
    which its properties are stated, and the properties with their proofs. *)

From stdpp Require Import base option list strings.
From Stdlib Require Import Ascii Lia.



(** ** Python values returned by the methods *)

(** The methods return [True], [False] or (by falling off the end of the
    function, or explicitly in [check_book_availability]) [None]. *)
Inductive pyval : Type :=
| PyBool (b : bool)
| PyNone.

#[global] Instance pyval_eq_dec : EqDecision pyval.
Proof. solve_decision. Defined.

(** ** Object identities *)

Abbreviation bref := nat.   (* identity of a [Book] object *)
Abbreviation uref := nat.   (* identity of a [User] object *)

(** ** Insertion-ordered dictionaries

    A Python [dict] with string keys: keys are unique and iteration follows
    insertion order.  It is kept as an association list in iteration order. *)
Module Dict.
Section Dict.
Context {V : Type}.

Definition t := list (string * V).

Definition empty : t := [].

(* d[k], [None] standing for KeyError *)
Fixpoint get (k : string) (d : t) : option V :=
  match d with
  | [] => None
  | (k', v) :: d' => if decide (k = k') then Some v else get k d'
  end.

(* k in d *)
Definition mem (k : string) (d : t) : bool :=
  match get k d with Some _ => true | None => false end.

(* d[k] = v : overwrite in place when present, append otherwise *)
Fixpoint set (k : string) (v : V) (d : t) : t :=
  match d with
  | [] => [(k, v)]
  | (k', v') :: d' =>
      if decide (k = k') then (k', v) :: d' else (k', v') :: set k v d'
  end.

(* the entries of d other than the one for k *)
Fixpoint del (k : string) (d : t) : t :=
  match d with
  | [] => []
  | (k', v') :: d' =>
      if decide (k = k') then del k d' else (k', v') :: del k d'
  end.

(* del d[k], [None] standing for KeyError *)
Definition delitem (k : string) (d : t) : option t :=
  if mem k d then Some (del k d) else None.

(* d.items() *)
Definition items (d : t) : list (string * V) := d.

Definition keys (d : t) : list string := fst <$> d.
Definition values (d : t) : list V := snd <$> d.
End Dict.
Arguments t : clear implicits.
End Dict.

(** ** The objects *)

Record Book : Type := mkBook {
  title : string;
  author : string;
  isbn : string;
  is_borrowed : bool;
  borrower : option uref
}.

Record User : Type := mkUser {
  name : string;
  card_id : string;
  borrowed_books : list bref;
  max_borrow_limit : nat
}.

(** An entry of [Library.borrow_records]: a dict with five fixed keys. *)
Record LoanRecord : Type := mkLoanRecord {
  user_name : string;
  user_card_id : string;
  book_title : string;
  book_isbn : string;
  borrow_time : string
}.

(** [lib_name] is the attribute [name] of [Library]; [name] alone is taken
    by [User]. *)
Record Library : Type := mkLibrary {
  lib_name : string;
  books : Dict.t bref;
  users : Dict.t uref;
  borrow_records : list LoanRecord
}.

(** The object store. A new object gets the next free identity. *)
Record Heap : Type := mkHeap {
  book_objs : list Book;
  user_objs : list User
}.

(** A program state: the store and the one [Library] object. *)
Record State : Type := mkState {
  heap : Heap;
  lib : Library
}.

(** ** class Book *)

Definition Book_init (title author isbn : string) : Book :=
  mkBook title author isbn false None.

Definition Book_borrow (self : Book) (user : uref) : bool * Book :=
  if negb (is_borrowed self) then
    (true, mkBook (title self) (author self) (isbn self) true (Some user))
  else (false, self).

Definition Book_return_book (self : Book) : bool * Book :=
  if is_borrowed self then
    (true, mkBook (title self) (author self) (isbn self) false None)
  else (false, self).

Definition Book_is_available (self : Book) : bool :=
  negb (is_borrowed self).

(** The dict returned by [Book.get_status], with its five fixed keys. *)
Record BookStatus : Type := mkBookStatus {
  status_title : string;
  status_author : string;
  status_isbn : string;
  status_status : string;
  status_borrower : string
}.

(** ** Reading and writing the object store *)

Definition store_book (h : Heap) (r : bref) (b : Book) : Heap :=
  mkHeap (<[r:=b]> (book_objs h)) (user_objs h).

Definition store_user (h : Heap) (r : uref) (u : User) : Heap :=
  mkHeap (book_objs h) (<[r:=u]> (user_objs h)).

Definition new_book (h : Heap) (b : Book) : bref * Heap :=
  (length (book_objs h), mkHeap (book_objs h ++ [b]) (user_objs h)).

Definition new_user (h : Heap) (u : User) : uref * Heap :=
  (length (user_objs h), mkHeap (book_objs h) (user_objs h ++ [u])).

(** [Book.get_status] reads the name of the holder, a [User] object, and so
    takes the store. *)
Definition Book_get_status (h : Heap) (self : Book) : option BookStatus :=
  let status := if negb (is_borrowed self) then "可借阅" else "已借出" in
  borrower_name ←
    match borrower self with
    | Some user => name <$> user_objs h !! user
    | None => Some "无"
    end;
  Some (mkBookStatus (title self) (author self) (isbn self) status borrower_name).

(** ** class User *)

Definition User_init (name card_id : string) : User :=
  mkUser name card_id [] 5.

Definition with_borrowed_books (u : User) (bs : list bref) : User :=
  mkUser (name u) (card_id u) bs (max_borrow_limit u).

Definition User_can_borrow_more (self : User) : bool :=
  (length (borrowed_books self) <? max_borrow_limit self)%nat.

(** [list.remove(x)]: drops the first element equal to [x]; [None] stands
    for the ValueError raised when there is none. *)
Fixpoint list_remove (x : bref) (l : list bref) : option (list bref) :=
  match l with
  | [] => None
  | y :: l' =>
      if decide (x = y) then Some l'
      else match list_remove x l' with
           | Some r => Some (y :: r)
           | None => None
           end
  end.

(** The methods of [User] read and write two objects, [self] and [book].
    [None] is returned when a reference does not denote an object of the
    store, which no Python state allows, or when a Python exception would be
    raised. *)
Definition User_borrow_book (h : Heap) (self : uref) (book : bref)
  : option (bool * Heap) :=
  u ← user_objs h !! self;
  if negb (User_can_borrow_more u) then Some (false, h)
  else
    b ← book_objs h !! book;
    let '(ok, b') := Book_borrow b self in
    let h1 := store_book h book b' in
    if ok then
      Some (true,
            store_user h1 self
              (with_borrowed_books u (borrowed_books u ++ [book])))
    else Some (false, h1).

Definition User_return_book (h : Heap) (self : uref) (book : bref)
  : option (pyval * Heap) :=
  u ← user_objs h !! self;
  if bool_decide (book ∈ borrowed_books u) then
    b ← book_objs h !! book;
    let '(ok, b') := Book_return_book b in
    let h1 := store_book h book b' in
    if ok then
      bs ← list_remove book (borrowed_books u);
      Some (PyBool true, store_user h1 self (with_borrowed_books u bs))
    else Some (PyNone, h1)          (* no return statement on this path *)
  else Some (PyBool false, h).

(** ** class Library *)

Definition Library_init (name : string) : Library :=
  mkLibrary name Dict.empty Dict.empty [].

Definition with_books (l : Library) (d : Dict.t bref) : Library :=
  mkLibrary (lib_name l) d (users l) (borrow_records l).

Definition with_users (l : Library) (d : Dict.t uref) : Library :=
  mkLibrary (lib_name l) (books l) d (borrow_records l).

Definition with_borrow_records (l : Library) (rs : list LoanRecord) : Library :=
  mkLibrary (lib_name l) (books l) (users l) rs.

(** The state right after [Library(name)] in a fresh interpreter. *)
Definition fresh (name : string) : State :=
  mkState (mkHeap [] []) (Library_init name).

Definition Library_add_book (st : State) (title author isbn : string)
  : option (pyval * State) :=
  if Dict.mem isbn (books (lib st)) then Some (PyBool false, st)
  else
    let '(book, h1) := new_book (heap st) (Book_init title author isbn) in
    Some (PyBool true,
          mkState h1 (with_books (lib st) (Dict.set isbn book (books (lib st))))).

Definition Library_remove_book (st : State) (isbn : string)
  : option (pyval * State) :=
  if negb (Dict.mem isbn (books (lib st))) then Some (PyBool false, st)
  else
    book ← Dict.get isbn (books (lib st));
    b ← book_objs (heap st) !! book;
    if is_borrowed b then Some (PyBool false, st)
    else
      d ← Dict.delitem isbn (books (lib st));
      Some (PyBool true, mkState (heap st) (with_books (lib st) d)).

Definition Library_register_user (st : State) (name card_id : string)
  : option (pyval * State) :=
  if Dict.mem card_id (users (lib st)) then Some (PyBool false, st)
  else
    let '(user, h1) := new_user (heap st) (User_init name card_id) in
    Some (PyBool true,
          mkState h1 (with_users (lib st) (Dict.set card_id user (users (lib st))))).

(** The placeholder written in every record's [borrow_time]. *)
Definition the_time : string := "当前时间".

Definition Library_borrow_book (st : State) (user_card_id book_isbn : string)
  : option (pyval * State) :=
  if negb (Dict.mem user_card_id (users (lib st))) then Some (PyBool false, st)
  else if negb (Dict.mem book_isbn (books (lib st))) then Some (PyBool false, st)
  else
    user ← Dict.get user_card_id (users (lib st));
    book ← Dict.get book_isbn (books (lib st));
    match User_borrow_book (heap st) user book with
    | None => None
    | Some (true, h1) =>
        u ← user_objs h1 !! user;
        b ← book_objs h1 !! book;
        let record :=
          mkLoanRecord (name u) user_card_id (title b) book_isbn the_time in
        Some (PyBool true,
              mkState h1
                (with_borrow_records (lib st)
                   (borrow_records (lib st) ++ [record])))
    | Some (false, h1) => Some (PyBool false, mkState h1 (lib st))
    end.

Definition Library_return_book (st : State) (user_card_id book_isbn : string)
  : option (pyval * State) :=
  if negb (Dict.mem user_card_id (users (lib st))) then Some (PyBool false, st)
  else if negb (Dict.mem book_isbn (books (lib st))) then Some (PyBool false, st)
  else
    user ← Dict.get user_card_id (users (lib st));
    book ← Dict.get book_isbn (books (lib st));
    match User_return_book (heap st) user book with
    | None => None
    | Some (r, h1) => Some (r, mkState h1 (lib st))
    end.

Definition Library_check_book_availability (st : State) (book_isbn : string)
  : option pyval :=
  if negb (Dict.mem book_isbn (books (lib st))) then Some PyNone
  else
    book ← Dict.get book_isbn (books (lib st));
    b ← book_objs (heap st) !! book;
    Some (PyBool (Book_is_available b)).

(** ** Strings: [k in s] and [str.lower] *)

(** [s.startswith(p)] *)
Fixpoint startswith (s p : string) {struct p} : bool :=
  match p, s with
  | EmptyString, _ => true
  | String _ _, EmptyString => false
  | String a p', String b s' => if decide (a = b) then startswith s' p' else false
  end.

(** [k in s] for two strings: [k] occurs in [s] at some offset. *)
Fixpoint str_in (k s : string) : bool :=
  startswith s k ||
  match s with
  | EmptyString => false
  | String _ s' => str_in k s'
  end.

Section Search.
(** [str.lower] belongs to the Python runtime, not to the program; the
    search is stated for any such function. *)
Variable lower : string → string.

Definition book_matches (keyword : string) (isbn : string) (b : Book) : bool :=
  str_in keyword (lower (title b)) ||
  str_in keyword (lower (author b)) ||
  str_in keyword (lower isbn).

(** The [for isbn, book in self.books.items()] loop, [results] being the
    list built so far. *)
Fixpoint search_loop (h : Heap) (keyword : string)
    (items : list (string * bref)) (results : list bref)
  : option (list bref) :=
  match items with
  | [] => Some results
  | (isbn, book) :: rest =>
      b ← book_objs h !! book;
      if book_matches keyword isbn b
      then search_loop h keyword rest (results ++ [book])
      else search_loop h keyword rest results
  end.

Definition Library_search_book (st : State) (keyword : string)
  : option (list bref) :=
  let results := [] in
  let keyword := lower keyword in
  search_loop (heap st) keyword (Dict.items (books (lib st))) results.
End Search.

(** ASCII lower-casing, the restriction of [str.lower] to ASCII text; used
    to run the search on concrete catalogs. *)
Definition ascii_lower (c : ascii) : ascii :=
  let n := nat_of_ascii c in
  if ((65 <=? n) && (n <=? 90))%nat then ascii_of_nat (n + 32) else c.

Fixpoint lower_ascii (s : string) : string :=
  match s with
  | EmptyString => EmptyString
  | String c s' => String (ascii_lower c) (lower_ascii s')
  end.

(** ** Sequences of operations *)

(** The state-changing methods of [Library]; the remaining ones
    ([check_book_availability], [search_book], [display_*]) only read. *)
Inductive Op : Type :=
| AddBook (title author isbn : string)
| RemoveBook (isbn : string)
| RegisterUser (name card_id : string)
| BorrowBook (user_card_id book_isbn : string)
| ReturnBook (user_card_id book_isbn : string).

Definition step (st : State) (op : Op) : option (pyval * State) :=
  match op with
  | AddBook t a i => Library_add_book st t a i
  | RemoveBook i => Library_remove_book st i
  | RegisterUser n c => Library_register_user st n c
  | BorrowBook c i => Library_borrow_book st c i
  | ReturnBook c i => Library_return_book st c i
  end.

(** Runs the calls in order and collects what they return. *)
Fixpoint run (st : State) (ops : list Op) : option (list pyval * State) :=
  match ops with
  | [] => Some ([], st)
  | op :: ops' =>
      match step st op with
      | None => None
      | Some (r, st1) =>
          match run st1 ops' with
          | None => None
          | Some (rs, st2) => Some (r :: rs, st2)
          end
      end
  end.

(** States reached from a fresh [Library] by method calls. *)
Inductive reachable : State → Prop :=
| reachable_fresh name : reachable (fresh name)
| reachable_step st op r st' :
    reachable st → step st op = Some (r, st') → reachable st'.

(** ** Looking objects up through the library *)

Definition find_book (st : State) (isbn : string) : option Book :=
  book ← Dict.get isbn (books (lib st));
  book_objs (heap st) !! book.

Definition find_user (st : State) (card_id : string) : option User :=
  user ← Dict.get card_id (users (lib st));
  user_objs (heap st) !! user.

(** ** The scenario of [test_library_system] *)

Definition demo_ops : list Op :=
  [ AddBook "Python Crash Course" "Eric Matthes" "9787115428028";
    AddBook "Fluent Python" "Luciano Ramalho" "9787115454157";
    AddBook "Introduction to Algorithms" "Thomas H. Cormen" "9787111407010";
    RegisterUser "Zhang San" "2023001";
    RegisterUser "Li Si" "2023002";
    BorrowBook "2023001" "9787115428028";
    BorrowBook "2023002" "9787115428028";
    BorrowBook "2023002" "9787115454157" ].

Definition demo_state : State :=
  match run (fresh "Central") demo_ops with
  | Some (_, st) => st
  | None => fresh "Central"
  end.

(** * Vocabulary of the properties *)

(** ** Outcomes of the methods of [User] *)

(** The book [b] once lent to [user], and once handed back. *)
Definition lent (b : Book) (user : uref) : Book :=
  mkBook (title b) (author b) (isbn b) true (Some user).

Definition handed_back (b : Book) : Book :=
  mkBook (title b) (author b) (isbn b) false None.

(** The three ways [User.borrow_book] can go. *)
Inductive borrow_outcome (h : Heap) (self : uref) (book : bref)
  : bool → Heap → Prop :=
| borrow_limit u :
    user_objs h !! self = Some u →
    User_can_borrow_more u = false →
    borrow_outcome h self book false h
| borrow_on_loan u b :
    user_objs h !! self = Some u →
    User_can_borrow_more u = true →
    book_objs h !! book = Some b →
    is_borrowed b = true →
    borrow_outcome h self book false h
| borrow_done u b :
    user_objs h !! self = Some u →
    User_can_borrow_more u = true →
    book_objs h !! book = Some b →
    is_borrowed b = false →
    borrow_outcome h self book true
      (mkHeap (<[book:=lent b self]> (book_objs h))
              (<[self:=with_borrowed_books u (borrowed_books u ++ [book])]>
                 (user_objs h))).

(** The three ways [User.return_book] can go. *)
Inductive return_outcome (h : Heap) (self : uref) (book : bref)
  : pyval → Heap → Prop :=
| return_not_held u :
    user_objs h !! self = Some u →
    book ∉ borrowed_books u →
    return_outcome h self book (PyBool false) h
| return_stale u b :
    user_objs h !! self = Some u →
    book ∈ borrowed_books u →
    book_objs h !! book = Some b →
    is_borrowed b = false →
    return_outcome h self book PyNone h
| return_done u b bs :
    user_objs h !! self = Some u →
    book ∈ borrowed_books u →
    book_objs h !! book = Some b →
    is_borrowed b = true →
    list_remove book (borrowed_books u) = Some bs →
    return_outcome h self book (PyBool true)
      (mkHeap (<[book:=handed_back b]> (book_objs h))
              (<[self:=with_borrowed_books u bs]> (user_objs h))).

(** ** Consistency of a state *)

(** What the calls maintain of the objects: the limit and the length of
    every user's list, no book twice in a list, every listed book on loan to
    the user who lists it, and flag and holder set together. *)
Record heap_ok (h : Heap) : Prop := {
  ok_limit : ∀ ur u, user_objs h !! ur = Some u →
    max_borrow_limit u = 5 ∧ length (borrowed_books u) ≤ 5;
  ok_nodup : ∀ ur u, user_objs h !! ur = Some u → NoDup (borrowed_books u);
  ok_held : ∀ ur u br, user_objs h !! ur = Some u → br ∈ borrowed_books u →
    ∃ b, book_objs h !! br = Some b ∧ is_borrowed b = true ∧ borrower b = Some ur;
  ok_flag : ∀ br b, book_objs h !! br = Some b →
    (is_borrowed b = true ↔ is_Some (borrower b))
}.

(** Every entry of the two dictionaries denotes an object of the store that
    carries the entry's key, and no key occurs twice. *)
Record lib_ok (h : Heap) (l : Library) : Prop := {
  ok_books : ∀ k r, (k, r) ∈ books l →
    ∃ b, book_objs h !! r = Some b ∧ isbn b = k;
  ok_users : ∀ k r, (k, r) ∈ users l →
    ∃ u, user_objs h !! r = Some u ∧ card_id u = k;
  ok_book_keys : NoDup (Dict.keys (books l));
  ok_user_keys : NoDup (Dict.keys (users l))
}.

Definition consistent (st : State) : Prop :=
  heap_ok (heap st) ∧ lib_ok (heap st) (lib st).

(** Objects are never dropped from the store and keep their identifying
    attributes. *)
Definition heap_ext (h h' : Heap) : Prop :=
  (∀ r b, book_objs h !! r = Some b →
     ∃ b', book_objs h' !! r = Some b' ∧
           isbn b' = isbn b ∧ title b' = title b ∧ author b' = author b) ∧
  (∀ r u, user_objs h !! r = Some u →
     ∃ u', user_objs h' !! r = Some u' ∧
           card_id u' = card_id u ∧ name u' = name u).

(** No dictionary entry dangles; this holds of every Python state. *)
Definition closed (st : State) : Prop :=
  (∀ k r, Dict.get k (books (lib st)) = Some r →
     is_Some (book_objs (heap st) !! r)) ∧
  (∀ k r, Dict.get k (users (lib st)) = Some r →
     is_Some (user_objs (heap st) !! r)).

(** The on-loan flag of [b] is set exactly when its holder is. *)
Definition loan_flag_ok (b : Book) : Prop :=
  is_borrowed b = true ↔ is_Some (borrower b).

(** How books, users, catalog and log hang together: the holder of a book
    lists it, a book on loan is in the catalog under its isbn, every user
    object is registered under its card id, and every book a user holds has
    its record in the log. *)
Record linked (st : State) : Prop := {
  lk_holder : ∀ br b ur,
    book_objs (heap st) !! br = Some b → borrower b = Some ur →
    ∃ u, user_objs (heap st) !! ur = Some u ∧ br ∈ borrowed_books u;
  lk_catalog : ∀ br b,
    book_objs (heap st) !! br = Some b → is_borrowed b = true →
    Dict.get (isbn b) (books (lib st)) = Some br;
  lk_registered : ∀ ur u,
    user_objs (heap st) !! ur = Some u →
    Dict.get (card_id u) (users (lib st)) = Some ur;
  lk_logged : ∀ ur u br b,
    user_objs (heap st) !! ur = Some u → br ∈ borrowed_books u →
    book_objs (heap st) !! br = Some b →
    mkLoanRecord (name u) (card_id u) (title b) (isbn b) the_time
      ∈ borrow_records (lib st)
}.

(** ** The records a run is to write *)

(** What one call is to add to the log: one record for a [borrow_book] that
    returned [True], made of the user's name, the card id, the book's title,
    the isbn and the placeholder time; nothing for any other call. *)
Definition loan_of (st : State) (op : Op) (r : pyval) : list LoanRecord :=
  match op, r with
  | BorrowBook c i, PyBool true =>
      match find_user st c, find_book st i with
      | Some u, Some b => [mkLoanRecord (name u) c (title b) i the_time]
      | _, _ => []
      end
  | _, _ => []
  end.

(** The records a sequence of calls is to add, in order. *)
Fixpoint loans_of (st : State) (ops : list Op) : list LoanRecord :=
  match ops with
  | [] => []
  | op :: ops' =>
      match step st op with
      | Some (r, st1) => loan_of st op r ++ loans_of st1 ops'
      | None => []
      end
  end.

(** The number of [borrow_book] calls that returned [True]. *)
Fixpoint successful_borrows (ops : list Op) (rs : list pyval) : nat :=
  match ops, rs with
  | BorrowBook _ _ :: ops', PyBool true :: rs' => S (successful_borrows ops' rs')
  | _ :: ops', _ :: rs' => successful_borrows ops' rs'
  | _, _ => 0
  end.

(** ** The books a search is to return *)

(** [k] is a substring of [s]: it is read off [s] at some offset. *)
Definition occurs_in (k s : string) : Prop :=
  Exists (λ n, String.substring n (String.length k) s = k)
         (seq 0 (S (String.length s))).

#[global] Instance occurs_in_dec k s : Decision (occurs_in k s).
Proof. unfold occurs_in. apply _. Defined.

Section SearchVocabulary.
Variable lower : string → string.

(** The keyword is a case-insensitive substring of the title, the author
    or the isbn of [b]. *)
Definition matches_keyword (keyword : string) (b : Book) : Prop :=
  occurs_in (lower keyword) (lower (title b)) ∨
  occurs_in (lower keyword) (lower (author b)) ∨
  occurs_in (lower keyword) (lower (isbn b)).

#[global] Instance matches_keyword_dec keyword b :
  Decision (matches_keyword keyword b).
Proof. unfold matches_keyword. apply _. Defined.

(** The catalog entry [e] denotes a book that matches. *)
Definition selected (h : Heap) (keyword : string) (e : string * bref) : Prop :=
  match book_objs h !! e.2 with
  | Some b => matches_keyword keyword b
  | None => False
  end.

#[global] Instance selected_dec h keyword e : Decision (selected h keyword e).
Proof. unfold selected. destruct (book_objs h !! e.2); apply _. Defined.

(** The matching books, in the order of the catalog. *)
Definition search_spec (st : State) (keyword : string) : list bref :=
  (filter (selected (heap st) keyword) (Dict.items (books (lib st)))).*2.
End SearchVocabulary.

(** ** Sample states *)

Definition demo_results : list pyval :=
  [PyBool true; PyBool true; PyBool true; PyBool true; PyBool true;
   PyBool true; PyBool false; PyBool true].

(** A state no sequence of calls produces: the user's list names a book
    that is not on loan. *)
Definition stale_state : State :=
  mkState (mkHeap [Book_init "T" "A" "1"] [mkUser "N" "c" [0] 5])
          (mkLibrary "L" [("1", 0)] [("c", 0)] []).

(** * Properties *)

(** ** Running the model *)

Example demo_returns :
  fst <$> run (fresh "Central") demo_ops =
  Some [PyBool true; PyBool true; PyBool true; PyBool true; PyBool true;
        PyBool true; PyBool false; PyBool true].
Proof. reflexivity. Qed.

Example demo_search_python :
  Library_search_book lower_ascii demo_state "PYTHON" = Some [0; 1].
Proof. reflexivity. Qed.

Example demo_check_on_loan :
  Library_check_book_availability demo_state "9787115428028"
  = Some (PyBool false).
Proof. reflexivity. Qed.

Example demo_check_unknown :
  Library_check_book_availability demo_state "42" = Some PyNone.
Proof. reflexivity. Qed.


(** ** Dictionaries *)

Module DictFacts.
Section DictFacts.
Context {V : Type}.
Implicit Types (d : Dict.t V) (k : string) (v : V).

Lemma mem_get k d : Dict.mem k d = true ↔ is_Some (Dict.get k d).
Proof.
  unfold Dict.mem. destruct (Dict.get k d); split; intros H; eauto.
  - discriminate.
  - by destruct H.
Qed.

Lemma mem_false k d : Dict.mem k d = false ↔ Dict.get k d = None.
Proof. unfold Dict.mem. destruct (Dict.get k d); split; congruence. Qed.

Lemma get_elem_of k v d : Dict.get k d = Some v → (k, v) ∈ d.
Proof.
  induction d as [|[k' v'] d IH]; simpl; [done|].
  case_decide; intros Hg.
  - injection Hg as ->. subst. left.
  - right. auto.
Qed.

Lemma get_None_keys k d : Dict.get k d = None ↔ k ∉ Dict.keys d.
Proof.
  induction d as [|[k' v'] d IH]; simpl.
  - split; [intros _; apply not_elem_of_nil | done].
  - rewrite not_elem_of_cons. case_decide; subst; split; try done.
    + by intros [? _].
    + intros. split; [done|]. by apply IH.
    + intros [_ ?]. by apply IH.
Qed.

Lemma elem_of_set k v d k' v' :
  Dict.get k d = None →
  (k', v') ∈ Dict.set k v d ↔ (k', v') ∈ d ∨ (k', v') = (k, v).
Proof.
  induction d as [|[k0 v0] d IH]; simpl.
  - intros _. rewrite list_elem_of_singleton, elem_of_nil. tauto.
  - case_decide; [done|]. intros Hn.
    rewrite !elem_of_cons, (IH Hn). tauto.
Qed.

Lemma set_fresh k v d : Dict.get k d = None → Dict.set k v d = d ++ [(k, v)].
Proof.
  induction d as [|[k0 v0] d IH]; simpl; [done|].
  case_decide; [done|]. intros Hn. by rewrite IH.
Qed.

Lemma get_set_eq k v d : Dict.get k (Dict.set k v d) = Some v.
Proof.
  induction d as [|[k0 v0] d IH]; simpl.
  - by rewrite decide_True.
  - case_decide; simpl.
    + by rewrite decide_True.
    + by rewrite decide_False.
Qed.

Lemma get_set_ne k k' v d :
  k ≠ k' → Dict.get k' (Dict.set k v d) = Dict.get k' d.
Proof.
  intros Hne. induction d as [|[k0 v0] d IH]; simpl.
  - by rewrite decide_False.
  - repeat (case_decide; simpl); subst; congruence.
Qed.

Lemma elem_of_del k d k' v' :
  (k', v') ∈ Dict.del k d ↔ (k', v') ∈ d ∧ k' ≠ k.
Proof.
  induction d as [|[k0 v0] d IH]; simpl.
  - rewrite elem_of_nil. tauto.
  - case_decide; subst.
    + rewrite IH, elem_of_cons. split; [tauto|].
      intros [[Heq|?] ?]; [congruence | tauto].
    + rewrite !elem_of_cons, IH. split; [|tauto].
      intros [Heq|[? ?]]; [|tauto]. split; [by left|]. congruence.
Qed.

Lemma get_del_eq k d : Dict.get k (Dict.del k d) = None.
Proof.
  induction d as [|[k0 v0] d IH]; simpl; [done|].
  case_decide; simpl; [done|]. by rewrite decide_False.
Qed.

Lemma get_del_ne k k' d :
  k ≠ k' → Dict.get k' (Dict.del k d) = Dict.get k' d.
Proof.
  intros Hne. induction d as [|[k0 v0] d IH]; simpl; [done|].
  repeat (case_decide; simpl); subst; congruence.
Qed.

Lemma del_sublist k d : sublist (Dict.del k d) d.
Proof.
  induction d as [|[k0 v0] d IH]; simpl; [done|].
  case_decide; by constructor.
Qed.
End DictFacts.
End DictFacts.

(** ** [list.remove] *)

Lemma list_remove_Some x l r :
  list_remove x l = Some r →
  x ∈ l ∧ length l = S (length r) ∧ sublist r l ∧
  (∀ y, y ∈ l → y ≠ x → y ∈ r).
Proof.
  revert r. induction l as [|y l IH]; simpl; intros r; [done|].
  case_decide as Hxy.
  - intros [= <-]. subst. repeat split.
    + left.
    + by apply sublist_cons.
    + intros z [->|?]%elem_of_cons; done.
  - destruct (list_remove x l) as [r'|]; [|done].
    intros [= <-]. destruct (IH r' eq_refl) as (Hin & Hlen & Hsub & Hrest).
    repeat split.
    + by right.
    + simpl. by rewrite Hlen.
    + by apply sublist_skip.
    + intros z [->|?]%elem_of_cons ?; [left | right; auto].
Qed.

Lemma list_remove_is_Some x l : x ∈ l → is_Some (list_remove x l).
Proof.
  induction l as [|y l IH]; simpl.
  - by intros ?%elem_of_nil.
  - case_decide; [eauto|]. intros [->|Hin]%elem_of_cons; [done|].
    destruct (IH Hin) as [r ->]. eauto.
Qed.

Lemma list_remove_NoDup x l r :
  NoDup l → list_remove x l = Some r → NoDup r ∧ x ∉ r.
Proof.
  revert r. induction l as [|y l IH]; simpl; intros r Hnd; [done|].
  apply NoDup_cons in Hnd as [Hy Hnd].
  case_decide as Hxy.
  - intros [= <-]. by subst.
  - destruct (list_remove x l) as [r'|] eqn:Hr; [|done].
    intros [= <-]. destruct (IH r' Hnd eq_refl) as [Hnd' Hx].
    apply list_remove_Some in Hr as (_ & _ & Hsub & _).
    split.
    + apply NoDup_cons. split; [|done].
      intros Hin. apply Hy. by apply (elem_of_sublist _ _ _ Hin Hsub).
    + rewrite not_elem_of_cons. done.
Qed.

(** ** What the methods of [Book] and [User] do to the store *)

Lemma Book_borrow_available b user :
  is_borrowed b = false → Book_borrow b user = (true, lent b user).
Proof. unfold Book_borrow. by intros ->. Qed.

Lemma Book_borrow_on_loan b user :
  is_borrowed b = true → Book_borrow b user = (false, b).
Proof. unfold Book_borrow. by intros ->. Qed.

Lemma Book_return_book_on_loan b :
  is_borrowed b = true → Book_return_book b = (true, handed_back b).
Proof. unfold Book_return_book. by intros ->. Qed.

Lemma Book_return_book_available b :
  is_borrowed b = false → Book_return_book b = (false, b).
Proof. unfold Book_return_book. by intros ->. Qed.

Lemma store_book_same h r b :
  book_objs h !! r = Some b → store_book h r b = h.
Proof.
  intros Hb. unfold store_book. rewrite list_insert_id by done. by destruct h.
Qed.

Lemma User_borrow_book_outcome h self book ok h' :
  User_borrow_book h self book = Some (ok, h') ↔
  borrow_outcome h self book ok h'.
Proof.
  unfold User_borrow_book. split.
  - destruct (user_objs h !! self) as [u|] eqn:Hu; simpl; [|done].
    destruct (User_can_borrow_more u) eqn:Hc; simpl.
    + destruct (book_objs h !! book) as [b|] eqn:Hb; simpl; [|done].
      destruct (is_borrowed b) eqn:Hl.
      * rewrite (Book_borrow_on_loan _ _ Hl), (store_book_same _ _ _ Hb).
        intros [= <- <-]. by eapply borrow_on_loan.
      * rewrite (Book_borrow_available _ _ Hl).
        unfold store_user, store_book; simpl.
        intros [= <- <-]. by eapply borrow_done.
    + intros [= <- <-]. by eapply borrow_limit.
  - intros [u Hu Hc | u b Hu Hc Hb Hl | u b Hu Hc Hb Hl];
      rewrite Hu; simpl; rewrite Hc; simpl; [done| |]; rewrite Hb; simpl.
    + by rewrite (Book_borrow_on_loan _ _ Hl), (store_book_same _ _ _ Hb).
    + by rewrite (Book_borrow_available _ _ Hl).
Qed.

Lemma User_return_book_outcome h self book r h' :
  User_return_book h self book = Some (r, h') ↔
  return_outcome h self book r h'.
Proof.
  unfold User_return_book. split.
  - destruct (user_objs h !! self) as [u|] eqn:Hu; simpl; [|done].
    case_bool_decide as Hin.
    + destruct (book_objs h !! book) as [b|] eqn:Hb; simpl; [|done].
      destruct (is_borrowed b) eqn:Hl.
      * rewrite (Book_return_book_on_loan _ Hl).
        destruct (list_remove book (borrowed_books u)) as [bs|] eqn:Hr;
          simpl; [|done].
        unfold store_user, store_book; simpl.
        intros [= <- <-]. by eapply return_done.
      * rewrite (Book_return_book_available _ Hl), (store_book_same _ _ _ Hb).
        intros [= <- <-]. by eapply return_stale.
    + intros [= <- <-]. by eapply return_not_held.
  - intros [u Hu Hin | u b Hu Hin Hb Hl | u b bs Hu Hin Hb Hl Hr];
      rewrite Hu; simpl.
    + by rewrite bool_decide_eq_false_2.
    + rewrite bool_decide_eq_true_2 by done. rewrite Hb. simpl.
      by rewrite (Book_return_book_available _ Hl), (store_book_same _ _ _ Hb).
    + rewrite bool_decide_eq_true_2 by done. rewrite Hb. simpl.
      rewrite (Book_return_book_on_loan _ Hl). by rewrite Hr.
Qed.

(** ** The invariant of the store *)

Lemma heap_ext_refl h : heap_ext h h.
Proof. split; eauto 10. Qed.

Lemma lookup_insert_keep {A} (l : list A) i x j y (P : A → Prop) :
  l !! j = Some y → (∀ z, l !! i = Some z → i = j → P x) → P y →
  ∃ y', <[i:=x]> l !! j = Some y' ∧ P y'.
Proof.
  intros Hj Hx Hy. destruct (decide (i = j)) as [->|Hne].
  - exists x. split; [|eauto].
    apply list_lookup_insert_eq. by eapply lookup_lt_Some.
  - exists y. by rewrite list_lookup_insert_ne.
Qed.

Lemma borrow_outcome_ext h self book ok h' :
  borrow_outcome h self book ok h' → heap_ext h h'.
Proof.
  intros [| |u b Hu Hc Hb Hl]; try apply heap_ext_refl.
  split; simpl; intros r x Hx.
  - apply lookup_insert_keep with (y := x)
      (P := λ b', isbn b' = isbn x ∧ title b' = title x ∧ author b' = author x);
      [done| |done].
    intros z Hz ->. rewrite Hb in Hx. by injection Hx as ->.
  - apply lookup_insert_keep with (y := x)
      (P := λ u', card_id u' = card_id x ∧ name u' = name x); [done| |done].
    intros z Hz ->. rewrite Hu in Hx. by injection Hx as ->.
Qed.

Lemma return_outcome_ext h self book r h' :
  return_outcome h self book r h' → heap_ext h h'.
Proof.
  intros [| |u b bs Hu Hin Hb Hl Hr]; try apply heap_ext_refl.
  split; simpl; intros i x Hx.
  - apply lookup_insert_keep with (y := x)
      (P := λ b', isbn b' = isbn x ∧ title b' = title x ∧ author b' = author x);
      [done| |done].
    intros z Hz ->. rewrite Hb in Hx. by injection Hx as ->.
  - apply lookup_insert_keep with (y := x)
      (P := λ u', card_id u' = card_id x ∧ name u' = name x); [done| |done].
    intros z Hz ->. rewrite Hu in Hx. by injection Hx as ->.
Qed.

Lemma lib_ok_ext h h' l : heap_ext h h' → lib_ok h l → lib_ok h' l.
Proof.
  intros [Hb Hu] [H1 H2 H3 H4]. split; [| |done|done].
  - intros k r Hin. destruct (H1 k r Hin) as (b & Hl & <-).
    destruct (Hb r b Hl) as (b' & ? & ? & _). eauto.
  - intros k r Hin. destruct (H2 k r Hin) as (u & Hl & <-).
    destruct (Hu r u Hl) as (u' & ? & ? & _). eauto.
Qed.

Lemma User_can_borrow_more_lt u :
  User_can_borrow_more u = true ↔ length (borrowed_books u) < max_borrow_limit u.
Proof. unfold User_can_borrow_more. apply Nat.ltb_lt. Qed.

Lemma heap_ok_borrow h self book ok h' :
  heap_ok h → borrow_outcome h self book ok h' → heap_ok h'.
Proof.
  intros Hok [| |u b Hu Hc Hb Hl]; [done|done|].
  destruct Hok as [Hlim Hnd Hheld Hflag].
  apply User_can_borrow_more_lt in Hc.
  assert (Hfresh : ∀ ur' u' br', user_objs h !! ur' = Some u' →
            br' ∈ borrowed_books u' → br' ≠ book).
  { intros ur' u' br' Hu' Hin ->.
    destruct (Hheld _ _ _ Hu' Hin) as (b0 & Hb0 & Hl0 & _). congruence. }
  split; simpl.
  - intros ur u' [(-> & <- & _)|[_ Hu']]%list_lookup_insert_Some; [|eauto].
    simpl. destruct (Hlim _ _ Hu) as [Hmax ?]. split; [done|].
    rewrite length_app. simpl. lia.
  - intros ur u' [(-> & <- & _)|[_ Hu']]%list_lookup_insert_Some; [|eauto].
    simpl. apply NoDup_app. split_and!; [eauto| |apply NoDup_singleton].
    intros x Hx ->%list_elem_of_singleton. by eapply Hfresh.
  - intros ur u' br Hu' Hin.
    apply list_lookup_insert_Some in Hu' as [(-> & <- & _)|[Hne Hu']].
    + simpl in Hin. apply elem_of_app in Hin as [Hin|Heq%list_elem_of_singleton].
      2: subst br.
      * destruct (Hheld _ _ _ Hu Hin) as (b0 & Hb0 & ? & ?).
        exists b0. rewrite list_lookup_insert_ne; [done|].
        intros <-. by eapply Hfresh.
      * exists (lent b ur). split; [|done].
        apply list_lookup_insert_eq. by eapply lookup_lt_Some.
    + destruct (Hheld _ _ _ Hu' Hin) as (b0 & Hb0 & ? & ?).
      exists b0. rewrite list_lookup_insert_ne; [done|].
      intros <-. by eapply Hfresh.
  - intros br b' [(-> & <- & _)|[_ Hb']]%list_lookup_insert_Some; [|eauto].
    simpl. split; eauto.
Qed.

Lemma heap_ok_return h self book r h' :
  heap_ok h → return_outcome h self book r h' → heap_ok h'.
Proof.
  intros Hok [| |u b bs Hu Hin Hb Hl Hr]; [done|done|].
  destruct Hok as [Hlim Hnd Hheld Hflag].
  destruct (list_remove_Some _ _ _ Hr) as (_ & Hlen & Hsub & _).
  destruct (list_remove_NoDup _ _ _ (Hnd _ _ Hu) Hr) as [Hnd' Hnotin].
  destruct (Hheld _ _ _ Hu Hin) as (b0 & Hb0 & _ & Hown).
  assert (b0 = b) as -> by congruence.
  split; simpl.
  - intros ur u' [(-> & <- & _)|[_ Hu']]%list_lookup_insert_Some; [|eauto].
    simpl. destruct (Hlim _ _ Hu) as [Hmax ?]. split; [done|lia].
  - intros ur u' [(-> & <- & _)|[_ Hu']]%list_lookup_insert_Some; [|eauto].
    done.
  - intros ur u' br Hu' Hbr.
    assert (br ≠ book ∧ ∃ b1, book_objs h !! br = Some b1 ∧
              is_borrowed b1 = true ∧ borrower b1 = Some ur) as [Hne (b1 & ? & ? & ?)].
    { apply list_lookup_insert_Some in Hu' as [(-> & <- & _)|[Hne Hu']].
      - simpl in Hbr. split; [by intros ->|].
        apply (Hheld _ _ _ Hu). by apply (sublist_subseteq _ _ Hsub).
      - destruct (Hheld _ _ _ Hu' Hbr) as (b1 & Hb1 & ? & Hown1).
        split; [|eauto]. intros ->. congruence. }
    exists b1. by rewrite list_lookup_insert_ne.
  - intros br b' [(-> & <- & _)|[_ Hb']]%list_lookup_insert_Some; [|eauto].
    simpl. split; [done|]. by intros [? ?].
Qed.

(** ** What the methods of [Library] do *)

Lemma state_eta st : mkState (heap st) (lib st) = st.
Proof. by destruct st. Qed.

(** [Library.borrow_book] either fails and leaves the state as it is, or
    lends the book and writes one record. *)
Lemma Library_borrow_book_inv st c i r st' :
  Library_borrow_book st c i = Some (r, st') →
  (r = PyBool false ∧ st' = st) ∨
  (r = PyBool true ∧
   ∃ ur br u b,
     Dict.get c (users (lib st)) = Some ur ∧
     Dict.get i (books (lib st)) = Some br ∧
     user_objs (heap st) !! ur = Some u ∧
     book_objs (heap st) !! br = Some b ∧
     borrow_outcome (heap st) ur br true (heap st') ∧
     lib st' = with_borrow_records (lib st)
                 (borrow_records (lib st)
                    ++ [mkLoanRecord (name u) c (title b) i the_time])).
Proof.
  unfold Library_borrow_book.
  destruct (Dict.mem c (users (lib st))); simpl; [|intros [= <- <-]; by left].
  destruct (Dict.mem i (books (lib st))); simpl; [|intros [= <- <-]; by left].
  destruct (Dict.get c (users (lib st))) as [ur|]; simpl; [|done].
  destruct (Dict.get i (books (lib st))) as [br|]; simpl; [|done].
  destruct (User_borrow_book (heap st) ur br) as [[[] h1]|] eqn:Hb; [| |done].
  - apply User_borrow_book_outcome in Hb.
    pose proof Hb as Hout. inversion Hb as [| |u b Hu Hc Hbk Hl Heq]. subst h1.
    simpl.
    rewrite list_lookup_insert_eq by (by eapply lookup_lt_Some). simpl.
    rewrite list_lookup_insert_eq by (by eapply lookup_lt_Some). simpl.
    intros [= <- <-]. right. split; [done|].
    exists ur, br, u, b. by split_and!.
  - apply User_borrow_book_outcome in Hb.
    inversion Hb; subst; intros [= <- <-]; left; by rewrite state_eta.
Qed.

Lemma Library_return_book_inv st c i r st' :
  Library_return_book st c i = Some (r, st') →
  lib st' = lib st ∧
  ((r = PyBool false ∧ st' = st ∧
    (Dict.get c (users (lib st)) = None ∨ Dict.get i (books (lib st)) = None)) ∨
   (∃ ur br,
     Dict.get c (users (lib st)) = Some ur ∧
     Dict.get i (books (lib st)) = Some br ∧
     return_outcome (heap st) ur br r (heap st'))).
Proof.
  unfold Library_return_book.
  destruct (Dict.mem c (users (lib st))) eqn:Hc; simpl;
    [|intros [= <- <-]; split; [done|left]; split_and!; try done;
      left; by apply DictFacts.mem_false].
  destruct (Dict.mem i (books (lib st))) eqn:Hi; simpl;
    [|intros [= <- <-]; split; [done|left]; split_and!; try done;
      right; by apply DictFacts.mem_false].
  destruct (Dict.get c (users (lib st))) as [ur|]; simpl; [|done].
  destruct (Dict.get i (books (lib st))) as [br|]; simpl; [|done].
  destruct (User_return_book (heap st) ur br) as [[r0 h1]|] eqn:Hr; [|done].
  intros [= <- <-]. split; [done|]. right. exists ur, br.
  split_and!; try done. by apply User_return_book_outcome.
Qed.

Lemma User_borrow_book_total h ur br :
  is_Some (user_objs h !! ur) → is_Some (book_objs h !! br) →
  is_Some (User_borrow_book h ur br).
Proof.
  intros [u Hu] [b Hb]. unfold User_borrow_book. rewrite Hu. simpl.
  destruct (negb _); [eauto|]. rewrite Hb. simpl.
  destruct (Book_borrow b ur) as [[] ?]; eauto.
Qed.

Lemma User_return_book_total h ur br :
  is_Some (user_objs h !! ur) → is_Some (book_objs h !! br) →
  is_Some (User_return_book h ur br).
Proof.
  intros [u Hu] [b Hb]. unfold User_return_book. rewrite Hu. simpl.
  case_bool_decide as Hin; [|eauto]. rewrite Hb. simpl.
  destruct (Book_return_book b) as [[] ?]; [|eauto].
  destruct (list_remove_is_Some _ _ Hin) as [bs ->]. simpl. eauto.
Qed.

(** ** Every reachable state is consistent *)

Lemma lib_ok_records h l rs : lib_ok h l → lib_ok h (with_borrow_records l rs).
Proof. by intros []. Qed.

Lemma fresh_consistent name : consistent (fresh name).
Proof.
  split; split; simpl; try done; try apply NoDup_nil_2;
    by intros ? ? ?%elem_of_nil.
Qed.

Lemma keys_del_sublist {V} k (d : Dict.t V) :
  sublist (Dict.keys (Dict.del k d)) (Dict.keys d).
Proof.
  induction d as [|[k0 v0] d IH]; simpl; [done|].
  case_decide; simpl; by constructor.
Qed.

Lemma keys_set_fresh {V} k v (d : Dict.t V) :
  Dict.get k d = None → NoDup (Dict.keys d) → NoDup (Dict.keys (Dict.set k v d)).
Proof.
  intros Hn Hnd. rewrite DictFacts.set_fresh by done.
  unfold Dict.keys. rewrite fmap_snoc. simpl.
  apply NoDup_app. split_and!; [done| |apply NoDup_singleton].
  intros x Hx Heq%list_elem_of_singleton. subst x.
  by apply DictFacts.get_None_keys in Hn.
Qed.

Lemma add_book_consistent st t a i r st' :
  consistent st → Library_add_book st t a i = Some (r, st') → consistent st'.
Proof.
  intros [Hh Hl]. unfold Library_add_book.
  destruct (Dict.mem i (books (lib st))) eqn:Hm; [by intros [= <- <-]|].
  apply DictFacts.mem_false in Hm. simpl. intros [= <- <-].
  destruct Hh as [Hlim Hnd Hheld Hflag]. destruct Hl as [Hbk Hus Hkb Hku].
  split; split; simpl; try done.
  - intros ur u br Hu Hin. destruct (Hheld _ _ _ Hu Hin) as (b & Hb & ?).
    exists b. split; [|done]. by apply lookup_app_l_Some.
  - intros br b [[_ Hb]|[_ <-]]%lookup_snoc_Some; [eauto|].
    simpl. split; [done|]. by intros [? ?].
  - intros k ref Hin. apply DictFacts.elem_of_set in Hin; [|done].
    destruct Hin as [Hin|[= -> ->]].
    + destruct (Hbk _ _ Hin) as (b & Hb & ?). exists b.
      split; [|done]. by apply lookup_app_l_Some.
    + exists (Book_init t a i). split; [|done].
      apply lookup_snoc_Some. right. by split.
  - by apply keys_set_fresh.
Qed.

Lemma register_user_consistent st n c r st' :
  consistent st → Library_register_user st n c = Some (r, st') → consistent st'.
Proof.
  intros [Hh Hl]. unfold Library_register_user.
  destruct (Dict.mem c (users (lib st))) eqn:Hm; [by intros [= <- <-]|].
  apply DictFacts.mem_false in Hm. simpl. intros [= <- <-].
  destruct Hh as [Hlim Hnd Hheld Hflag]. destruct Hl as [Hbk Hus Hkb Hku].
  split; split; simpl; try done.
  - intros ur u [[_ Hu]|[_ <-]]%lookup_snoc_Some; [eauto|].
    simpl. split; [done|lia].
  - intros ur u [[_ Hu]|[_ <-]]%lookup_snoc_Some; [eauto|].
    simpl. apply NoDup_nil_2.
  - intros ur u br [[_ Hu]|[_ <-]]%lookup_snoc_Some Hin; [eauto|].
    by apply elem_of_nil in Hin.
  - intros k ref Hin. apply DictFacts.elem_of_set in Hin; [|done].
    destruct Hin as [Hin|[= -> ->]].
    + destruct (Hus _ _ Hin) as (u & Hu & ?). exists u.
      split; [|done]. by apply lookup_app_l_Some.
    + exists (User_init n c). split; [|done].
      apply lookup_snoc_Some. right. by split.
  - by apply keys_set_fresh.
Qed.

Lemma remove_book_consistent st i r st' :
  consistent st → Library_remove_book st i = Some (r, st') → consistent st'.
Proof.
  intros [Hh Hl]. unfold Library_remove_book, Dict.delitem.
  destruct (Dict.mem i (books (lib st))) eqn:Hm; simpl; [|by intros [= <- <-]].
  destruct (Dict.get i (books (lib st))) as [br|]; simpl; [|done].
  destruct (book_objs (heap st) !! br) as [b|]; simpl; [|done].
  destruct (is_borrowed b); [by intros [= <- <-]|].
  simpl. intros [= <- <-]. split; [done|].
  destruct Hl as [Hbk Hus Hkb Hku]. split; simpl; try done.
  - intros k ref [Hin _]%DictFacts.elem_of_del. eauto.
  - exact (sublist_NoDup _ _ Hkb (keys_del_sublist _ _)).
Qed.

Lemma borrow_book_consistent st c i r st' :
  consistent st → Library_borrow_book st c i = Some (r, st') → consistent st'.
Proof.
  intros [Hh Hl] [[_ ->]|[_ (ur & br & u & b & _ & _ & _ & _ & Hout & Hlib)]]
    %Library_borrow_book_inv; [done|].
  split.
  - by eapply heap_ok_borrow.
  - rewrite Hlib. apply lib_ok_records.
    eapply lib_ok_ext; [by eapply borrow_outcome_ext | done].
Qed.

Lemma return_book_consistent st c i r st' :
  consistent st → Library_return_book st c i = Some (r, st') → consistent st'.
Proof.
  intros [Hh Hl] [Hlib [(_ & -> & _)|(ur & br & _ & _ & Hout)]]
    %Library_return_book_inv; [done|].
  split.
  - by eapply heap_ok_return.
  - rewrite Hlib. eapply lib_ok_ext; [by eapply return_outcome_ext | done].
Qed.

Lemma step_consistent st op r st' :
  consistent st → step st op = Some (r, st') → consistent st'.
Proof.
  destruct op; simpl;
    eauto using add_book_consistent, remove_book_consistent,
      register_user_consistent, borrow_book_consistent, return_book_consistent.
Qed.

Lemma reachable_consistent st : reachable st → consistent st.
Proof.
  induction 1 as [name|st op r st' _ IH Hstep].
  - apply fresh_consistent.
  - by eapply step_consistent.
Qed.

(** No call gets stuck on a dangling reference or raises. *)
Lemma step_total st op : consistent st → is_Some (step st op).
Proof.
  intros [Hh [Hbk Hus _ _]]. destruct op as [t a i|i|n c|c i|c i]; simpl.
  - unfold Library_add_book. destruct (Dict.mem _ _); simpl; eauto.
  - unfold Library_remove_book, Dict.delitem.
    destruct (Dict.mem i (books (lib st))) eqn:Hm; simpl; [|eauto].
    destruct (Dict.get i (books (lib st))) as [br|] eqn:Hg; simpl;
      [|by apply DictFacts.mem_false in Hg; congruence].
    destruct (Hbk _ _ (DictFacts.get_elem_of _ _ _ Hg)) as (b & -> & _). simpl.
    destruct (is_borrowed b); simpl; eauto.
  - unfold Library_register_user. destruct (Dict.mem _ _); simpl; eauto.
  - unfold Library_borrow_book.
    destruct (Dict.mem c (users (lib st))) eqn:Hc; simpl; [|eauto].
    destruct (Dict.mem i (books (lib st))) eqn:Hi; simpl; [|eauto].
    apply DictFacts.mem_get in Hc as [ur Hur], Hi as [br Hbr].
    rewrite Hur, Hbr. simpl.
    destruct (Hus _ _ (DictFacts.get_elem_of _ _ _ Hur)) as (u & Hu & _).
    destruct (Hbk _ _ (DictFacts.get_elem_of _ _ _ Hbr)) as (b & Hb & _).
    destruct (User_borrow_book_total (heap st) ur br) as [[ok h1] Hr]; [eauto..|].
    rewrite Hr. destruct ok; [|eauto].
    apply User_borrow_book_outcome, borrow_outcome_ext in Hr as [Hx Hy].
    destruct (Hx _ _ Hb) as (b' & -> & _), (Hy _ _ Hu) as (u' & -> & _).
    simpl. eauto.
  - unfold Library_return_book.
    destruct (Dict.mem c (users (lib st))) eqn:Hc; simpl; [|eauto].
    destruct (Dict.mem i (books (lib st))) eqn:Hi; simpl; [|eauto].
    apply DictFacts.mem_get in Hc as [ur Hur], Hi as [br Hbr].
    rewrite Hur, Hbr. simpl.
    destruct (Hus _ _ (DictFacts.get_elem_of _ _ _ Hur)) as (u & Hu & _).
    destruct (Hbk _ _ (DictFacts.get_elem_of _ _ _ Hbr)) as (b & Hb & _).
    destruct (User_return_book_total (heap st) ur br) as [[r h1] ->]; eauto.
Qed.

(** ** Runs *)

Lemma run_reachable st ops rs st' :
  reachable st → run st ops = Some (rs, st') → reachable st'.
Proof.
  revert st rs st'. induction ops as [|op ops IH]; simpl; intros st rs st' Hr.
  - by intros [= _ <-].
  - destruct (step st op) as [[r st1]|] eqn:Hs; [|done].
    destruct (run st1 ops) as [[rs' st2]|] eqn:Hrun; [|done].
    intros [= _ <-]. eapply IH; [|done]. by eapply reachable_step.
Qed.

(** Every sequence of calls runs to completion from a fresh library. *)
Lemma run_total st ops : reachable st → is_Some (run st ops).
Proof.
  revert st. induction ops as [|op ops IH]; simpl; intros st Hr; [eauto|].
  destruct (step_total st op (reachable_consistent _ Hr)) as [[r st1] Hs].
  rewrite Hs. destruct (IH st1) as [[rs st2] ->]; [|eauto].
  by eapply reachable_step.
Qed.

Lemma demo_run : run (fresh "Central") demo_ops = Some (demo_results, demo_state).
Proof. reflexivity. Qed.

Lemma demo_reachable : reachable demo_state.
Proof. exact (run_reachable _ _ _ _ (reachable_fresh _) demo_run). Qed.

(** ** The borrow limit *)

(** C2: in every state reached from a fresh library by any sequence of
    operations, every registered user has the borrow limit 5 and holds at
    most that many books. *)
Theorem borrow_limit_respected st card u :
  reachable st →
  find_user st card = Some u →
  max_borrow_limit u = 5 ∧ length (borrowed_books u) ≤ max_borrow_limit u.
Proof.
  intros [[Hlim _ _ _] _]%reachable_consistent Hu.
  unfold find_user in Hu.
  destruct (Dict.get card (users (lib st))) as [ur|]; simpl in Hu; [|done].
  destruct (Hlim _ _ Hu) as [-> ?]. done.
Qed.

Lemma borrow_limit_respected_witness :
  reachable demo_state ∧
  find_user demo_state "2023001" = Some (mkUser "Zhang San" "2023001" [0] 5) ∧
  (5 = 5 ∧ 1 ≤ 5).
Proof.
  split; [exact demo_reachable|]. split; [reflexivity|].
  exact (borrow_limit_respected demo_state "2023001" _ demo_reachable eq_refl).
Defined.

(** ** The loan flag and the holder *)

Lemma Book_borrow_flag b user :
  loan_flag_ok b → loan_flag_ok (Book_borrow b user).2.
Proof.
  unfold Book_borrow, loan_flag_ok.
  destruct (is_borrowed b) eqn:E; simpl; [by rewrite E|].
  intros _. split; eauto.
Qed.

Lemma Book_return_book_flag b :
  loan_flag_ok b → loan_flag_ok (Book_return_book b).2.
Proof.
  unfold Book_return_book, loan_flag_ok.
  destruct (is_borrowed b) eqn:E; simpl; [|by rewrite E].
  intros _. split; [done|]. by intros [? ?].
Qed.

(** C3: for every book object of every reachable state, the on-loan flag is
    set exactly when the holder is set, and [is_available] is the negation of
    the flag; the same holds again after any further operation. *)
Theorem loan_flag_matches_holder st br b :
  reachable st →
  book_objs (heap st) !! br = Some b →
  loan_flag_ok b ∧
  Book_is_available b = negb (is_borrowed b) ∧
  ∀ op r st' b',
    step st op = Some (r, st') →
    book_objs (heap st') !! br = Some b' →
    loan_flag_ok b' ∧ Book_is_available b' = negb (is_borrowed b').
Proof.
  intros Hr Hb. split_and!.
  - apply reachable_consistent in Hr as [[_ _ _ Hflag] _]. by eapply Hflag.
  - done.
  - intros op r st' b' Hs Hb'. split; [|done].
    assert (reachable st') as [[_ _ _ Hflag] _]%reachable_consistent
      by (by eapply reachable_step).
    by eapply Hflag.
Qed.

Lemma loan_flag_matches_holder_witness :
  reachable demo_state ∧
  book_objs (heap demo_state) !! 0 =
    Some (mkBook "Python Crash Course" "Eric Matthes" "9787115428028" true (Some 0)) ∧
  (true = true ↔ is_Some (Some 0)).
Proof.
  split; [exact demo_reachable|]. split; [reflexivity|].
  exact (proj1 (loan_flag_matches_holder demo_state 0 _ demo_reachable eq_refl)).
Defined.

(** ** [return_book] returns a boolean *)

(** C6: in every reachable state [Library.return_book] returns [True] or
    [False], never [None]: a book found in a user's [borrowed_books] has its
    on-loan flag set, so the path of [User.return_book] that ends without a
    return statement is not taken. *)
Theorem return_book_returns_bool st c i :
  reachable st →
  (∃ ok st', Library_return_book st c i = Some (PyBool ok, st')) ∧
  (∀ ur u br, user_objs (heap st) !! ur = Some u → br ∈ borrowed_books u →
     ∃ b, book_objs (heap st) !! br = Some b ∧ is_borrowed b = true).
Proof.
  intros Hc%reachable_consistent. pose proof Hc as [[_ _ Hheld _] _]. split.
  - destruct (step_total st (ReturnBook c i) Hc) as [[r st'] Hs]. simpl in Hs.
    destruct (Library_return_book_inv _ _ _ _ _ Hs)
      as [_ [(-> & _)|(ur & br & _ & _ & Hout)]]; [eauto|].
    destruct Hout as [u Hu Hn|u b Hu Hin Hb Hl|]; [eauto| |eauto].
    destruct (Hheld _ _ _ Hu Hin) as (b0 & Hb0 & Hl0 & _). congruence.
  - intros ur u br Hu Hin. destruct (Hheld _ _ _ Hu Hin) as (b & ? & ? & _). eauto.
Qed.

Lemma return_book_returns_bool_witness :
  reachable demo_state ∧
  ∃ ok st', Library_return_book demo_state "2023001" "9787115428028"
            = Some (PyBool ok, st').
Proof.
  split; [exact demo_reachable|].
  exact (proj1 (return_book_returns_bool demo_state "2023001" "9787115428028"
                  demo_reachable)).
Defined.

(** Outside the reachable states the path exists. *)
Example return_book_None_when_stale :
  Library_return_book stale_state "c" "1" = Some (PyNone, stale_state).
Proof. reflexivity. Qed.

(** ** Borrowing and then returning *)

Lemma list_remove_snoc x l : x ∉ l → list_remove x (l ++ [x]) = Some l.
Proof.
  induction l as [|y l IH]; simpl.
  - intros _. by rewrite decide_True.
  - intros [Hne Hnin]%not_elem_of_cons. rewrite decide_False by done.
    by rewrite IH.
Qed.

(** C1: in a reachable state in which [borrow_book(card, isbn)] succeeds,
    the following [return_book(card, isbn)] succeeds too, and afterwards the
    book registered under [isbn] is available, has no holder, and is not in
    the [borrowed_books] of the user registered under [card]. *)
Theorem borrow_then_return st c i st1 :
  reachable st →
  Library_borrow_book st c i = Some (PyBool true, st1) →
  ∃ st2 br b u,
    Library_return_book st1 c i = Some (PyBool true, st2) ∧
    Dict.get i (books (lib st2)) = Some br ∧
    find_book st2 i = Some b ∧
    Book_is_available b = true ∧
    is_borrowed b = false ∧
    borrower b = None ∧
    find_user st2 c = Some u ∧
    br ∉ borrowed_books u.
Proof.
  intros [[_ _ Hheld _] _]%reachable_consistent Hb.
  apply Library_borrow_book_inv in Hb
    as [[? _]|[_ (ur & br & u & b & Hur & Hbr & Hu & Hbk & Hout & Hlib)]];
    [done|].
  assert (Hl : is_borrowed b = false).
  { inversion Hout as [| |u' b' Hu' _ Hb' Hl']. congruence. }
  assert (Hnin : br ∉ borrowed_books u).
  { intros Hin. destruct (Hheld _ _ _ Hu Hin) as (b0 & ? & ? & _). congruence. }
  assert (Hh1 : heap st1 =
    mkHeap (<[br:=lent b ur]> (book_objs (heap st)))
           (<[ur:=with_borrowed_books u (borrowed_books u ++ [br])]>
              (user_objs (heap st)))).
  { inversion Hout as [| |u' b' Hu' _ Hb' Hl' Heq]. congruence. }
  pose proof (lookup_lt_Some _ _ _ Hu) as Hlu.
  pose proof (lookup_lt_Some _ _ _ Hbk) as Hlb.
  destruct st1 as [h1 l1]. simpl in Hh1, Hlib. subst h1 l1. clear Hout.
  set (B1 := <[br:=lent b ur]> (book_objs (heap st))).
  set (u1 := with_borrowed_books u (borrowed_books u ++ [br])).
  set (U1 := <[ur:=u1]> (user_objs (heap st))).
  set (h2 := mkHeap (<[br:=handed_back (lent b ur)]> B1)
                    (<[ur:=with_borrowed_books u1 (borrowed_books u)]> U1)).
  assert (Hret : User_return_book (mkHeap B1 U1) ur br = Some (PyBool true, h2)).
  { apply User_return_book_outcome.
    apply (return_done (mkHeap B1 U1) ur br u1 (lent b ur) (borrowed_books u)).
    - by apply list_lookup_insert_eq.
    - apply elem_of_app. right. by apply list_elem_of_singleton.
    - by apply list_lookup_insert_eq.
    - done.
    - by apply list_remove_snoc. }
  exists (mkState h2 (with_borrow_records (lib st)
            (borrow_records (lib st)
               ++ [mkLoanRecord (name u) c (title b) i the_time]))),
    br, (handed_back (lent b ur)), (with_borrowed_books u1 (borrowed_books u)).
  assert (Hb2 : book_objs h2 !! br = Some (handed_back (lent b ur))).
  { apply list_lookup_insert_eq. subst B1. by rewrite length_insert. }
  assert (Hu2 : user_objs h2 !! ur
                = Some (with_borrowed_books u1 (borrowed_books u))).
  { apply list_lookup_insert_eq. subst U1. by rewrite length_insert. }
  split_and!; try done.
  - unfold Library_return_book. simpl.
    rewrite (proj2 (DictFacts.mem_get _ _)) by (rewrite Hur; eauto).
    rewrite (proj2 (DictFacts.mem_get _ _)) by (rewrite Hbr; eauto).
    simpl. rewrite Hur, Hbr. simpl. by rewrite Hret.
  - unfold find_book. simpl. rewrite Hbr. done.
  - unfold find_user. simpl. rewrite Hur. done.
Qed.

Lemma borrow_then_return_witness :
  reachable demo_state ∧
  Library_borrow_book demo_state "2023001" "9787111407010"
    = Some (PyBool true,
            default demo_state
              (snd <$> Library_borrow_book demo_state "2023001" "9787111407010")) ∧
  ∃ st2 br b u,
    Library_return_book
      (default demo_state
         (snd <$> Library_borrow_book demo_state "2023001" "9787111407010"))
      "2023001" "9787111407010" = Some (PyBool true, st2) ∧
    Dict.get "9787111407010" (books (lib st2)) = Some br ∧
    find_book st2 "9787111407010" = Some b ∧
    Book_is_available b = true ∧
    is_borrowed b = false ∧
    borrower b = None ∧
    find_user st2 "2023001" = Some u ∧
    br ∉ borrowed_books u.
Proof.
  split; [exact demo_reachable|]. split; [reflexivity|].
  exact (borrow_then_return demo_state "2023001" "9787111407010" _
           demo_reachable eq_refl).
Defined.

(** Without reachability the round trip can fail: the list of the user
    of [stale_state] names the book already, and one copy is left after
    the return. *)
Example borrow_then_return_not_everywhere :
  (snd <$> Library_borrow_book stale_state "c" "1") ≫=
    (λ st1, (snd <$> Library_return_book st1 "c" "1") ≫=
              (λ st2, borrowed_books <$> find_user st2 "c"))
  = Some [0].
Proof. reflexivity. Qed.

(** ** Failed calls change nothing *)

Lemma consistent_closed st : consistent st → closed st.
Proof.
  intros [_ [Hbk Hus _ _]]. split; intros k r Hg%DictFacts.get_elem_of.
  - destruct (Hbk _ _ Hg) as (? & ? & _); eauto.
  - destruct (Hus _ _ Hg) as (? & ? & _); eauto.
Qed.

Lemma demo_closed : closed demo_state.
Proof. apply consistent_closed, reachable_consistent, demo_reachable. Qed.

(** C4: when the book registered under [isbn] is on loan, [borrow_book] for
    that isbn returns [False] whoever asks, and the state after the call is
    the state before it: same holder, same [borrowed_books] of every user,
    same log. *)
Theorem borrow_on_loan_fails st c i b :
  closed st →
  find_book st i = Some b →
  is_borrowed b = true →
  Library_borrow_book st c i = Some (PyBool false, st) ∧
  ∀ r st', Library_borrow_book st c i = Some (r, st') →
    r = PyBool false ∧
    find_book st' i = Some b ∧
    (∀ c', find_user st' c' = find_user st c') ∧
    length (borrow_records (lib st')) = length (borrow_records (lib st)).
Proof.
  intros [_ Hus] Hb Hl.
  assert (Library_borrow_book st c i = Some (PyBool false, st)) as Heq.
  { unfold Library_borrow_book. unfold find_book in Hb.
    destruct (Dict.mem c (users (lib st))) eqn:Hc; simpl; [|done].
    destruct (Dict.get i (books (lib st))) as [br|] eqn:Hbr; simpl in Hb; [|done].
    rewrite (proj2 (DictFacts.mem_get i (books (lib st)))) by (rewrite Hbr; eauto).
    simpl. apply DictFacts.mem_get in Hc as [ur Hur]. rewrite Hur. simpl.
    destruct (Hus _ _ Hur) as [u Hu].
    assert (User_borrow_book (heap st) ur br = Some (false, heap st)) as ->.
    { apply User_borrow_book_outcome.
      destruct (User_can_borrow_more u) eqn:Hm.
      - by eapply borrow_on_loan.
      - by eapply borrow_limit. }
    by rewrite state_eta. }
  split; [done|]. intros r st'. rewrite Heq. by intros [= <- <-].
Qed.

Lemma borrow_on_loan_fails_witness :
  closed demo_state ∧
  find_book demo_state "9787115428028" =
    Some (mkBook "Python Crash Course" "Eric Matthes" "9787115428028" true (Some 0)) ∧
  true = true ∧
  Library_borrow_book demo_state "2023002" "9787115428028"
    = Some (PyBool false, demo_state).
Proof.
  split; [exact demo_closed|]. split; [reflexivity|]. split; [reflexivity|].
  exact (proj1 (borrow_on_loan_fails demo_state "2023002" "9787115428028" _
                  demo_closed eq_refl eq_refl)).
Defined.

(** C5: when the user registered under [card] does not hold the book
    registered under [isbn], [return_book] returns [False] and the state
    after the call is the state before it, so neither the book nor the user
    is changed. *)
Theorem return_not_held_fails st c i u br :
  find_user st c = Some u →
  Dict.get i (books (lib st)) = Some br →
  br ∉ borrowed_books u →
  Library_return_book st c i = Some (PyBool false, st).
Proof.
  intros Hu Hbr Hnin. unfold Library_return_book. unfold find_user in Hu.
  destruct (Dict.get c (users (lib st))) as [ur|] eqn:Hur; simpl in Hu; [|done].
  rewrite (proj2 (DictFacts.mem_get c (users (lib st)))) by (rewrite Hur; eauto).
  rewrite (proj2 (DictFacts.mem_get i (books (lib st)))) by (rewrite Hbr; eauto).
  simpl. rewrite Hbr. simpl.
  assert (User_return_book (heap st) ur br = Some (PyBool false, heap st)) as ->.
  { apply User_return_book_outcome. by eapply return_not_held. }
  by rewrite state_eta.
Qed.

Lemma return_not_held_fails_witness :
  find_user demo_state "2023002" = Some (mkUser "Li Si" "2023002" [1] 5) ∧
  Dict.get "9787115428028" (books (lib demo_state)) = Some 0 ∧
  (0 ∉ [1]) ∧
  Library_return_book demo_state "2023002" "9787115428028"
    = Some (PyBool false, demo_state).
Proof.
  assert (H01 : 0 ∉ [1]) by (by intros [=]%list_elem_of_singleton).
  split; [reflexivity|]. split; [reflexivity|]. split; [exact H01|].
  exact (return_not_held_fails demo_state "2023002" "9787115428028" _ 0
           eq_refl eq_refl H01).
Defined.

(** ** The log of loans *)

Lemma step_log st op r st' :
  step st op = Some (r, st') →
  borrow_records (lib st') = borrow_records (lib st) ++ loan_of st op r ∧
  length (loan_of st op r) =
    match op, r with BorrowBook _ _, PyBool true => 1 | _, _ => 0 end.
Proof.
  destruct op as [t a i|i|n c|c i|c i]; simpl.
  - unfold Library_add_book. destruct (Dict.mem _ _); simpl;
      intros [= <- <-]; simpl; by rewrite app_nil_r.
  - unfold Library_remove_book, Dict.delitem.
    destruct (Dict.mem _ _); simpl; [|intros [= <- <-]; by rewrite app_nil_r].
    destruct (Dict.get _ _); simpl; [|done].
    destruct (_ !! _) as [b|]; simpl; [|done].
    destruct (is_borrowed b); simpl; intros [= <- <-]; simpl;
      by rewrite app_nil_r.
  - unfold Library_register_user. destruct (Dict.mem _ _); simpl;
      intros [= <- <-]; simpl; by rewrite app_nil_r.
  - intros [[-> ->]|[-> (ur & br & u & b & Hur & Hbr & Hu & Hb & _ & ->)]]
      %Library_borrow_book_inv.
    + by rewrite app_nil_r.
    + unfold find_user, find_book. rewrite Hur, Hbr. simpl. by rewrite Hu, Hb.
  - intros [-> _]%Library_return_book_inv.
    rewrite app_nil_r. by destruct r as [[]|].
Qed.

(** C7: over any sequence of calls from any state, the log afterwards is the
    log before followed by one record (user name, card id, book title, isbn,
    placeholder time) for each [borrow_book] that returned [True], in order,
    and by nothing else: records already written stay as they are, and
    [return_book] writes none. *)
Theorem log_append_only st ops rs st' :
  run st ops = Some (rs, st') →
  borrow_records (lib st') = borrow_records (lib st) ++ loans_of st ops ∧
  length (loans_of st ops) = successful_borrows ops rs.
Proof.
  revert st rs st'. induction ops as [|op ops IH]; simpl; intros st rs st'.
  - intros [= <- <-]. by rewrite app_nil_r.
  - destruct (step st op) as [[r st1]|] eqn:Hs; [|done].
    destruct (run st1 ops) as [[rs' st2]|] eqn:Hrun; [|done].
    intros [= <- <-]. destruct (IH _ _ _ Hrun) as [-> Hlen].
    destruct (step_log _ _ _ _ Hs) as [-> Hone].
    split; [by rewrite app_assoc|].
    rewrite length_app, Hone, Hlen.
    destruct op; try done. by destruct r as [[]|].
Qed.

Lemma log_append_only_witness :
  run (fresh "Central") demo_ops = Some (demo_results, demo_state) ∧
  borrow_records (lib demo_state) =
    [] ++ [mkLoanRecord "Zhang San" "2023001" "Python Crash Course"
             "9787115428028" the_time;
           mkLoanRecord "Li Si" "2023002" "Fluent Python"
             "9787115454157" the_time] ∧
  2 = 2.
Proof.
  split; [reflexivity|].
  exact (log_append_only (fresh "Central") demo_ops demo_results demo_state
           eq_refl).
Defined.

(** A successful [borrow_book] alone, and a [return_book] alone. *)
Lemma borrow_book_logs_one st c i st' :
  Library_borrow_book st c i = Some (PyBool true, st') →
  ∃ u b, find_user st c = Some u ∧ find_book st i = Some b ∧
    borrow_records (lib st') =
      borrow_records (lib st) ++ [mkLoanRecord (name u) c (title b) i the_time].
Proof.
  intros [[? _]|[_ (ur & br & u & b & Hur & Hbr & Hu & Hb & _ & ->)]]
    %Library_borrow_book_inv; [done|].
  exists u, b. unfold find_user, find_book. rewrite Hur, Hbr. simpl.
  by rewrite Hu, Hb.
Qed.

Lemma return_book_logs_none st c i r st' :
  Library_return_book st c i = Some (r, st') →
  borrow_records (lib st') = borrow_records (lib st).
Proof. by intros [-> _]%Library_return_book_inv. Qed.

(** ** Availability *)

(** C8: [check_book_availability] returns [None] exactly when the isbn is
    not in the catalog, [True] exactly when the book is there and not on
    loan, and [False] exactly when it is there and on loan; the three values
    are distinct, and [None] in particular is not [False]. *)
Theorem check_book_availability_three_valued st i :
  closed st →
  ∃ r, Library_check_book_availability st i = Some r ∧
    (r = PyNone ↔ Dict.get i (books (lib st)) = None) ∧
    (r = PyBool true ↔ ∃ b, find_book st i = Some b ∧ is_borrowed b = false) ∧
    (r = PyBool false ↔ ∃ b, find_book st i = Some b ∧ is_borrowed b = true) ∧
    PyNone ≠ PyBool false ∧ PyNone ≠ PyBool true ∧ PyBool true ≠ PyBool false.
Proof.
  intros [Hbk _]. unfold Library_check_book_availability, find_book.
  destruct (Dict.get i (books (lib st))) as [br|] eqn:Hbr.
  - rewrite (proj2 (DictFacts.mem_get i (books (lib st)))) by (rewrite Hbr; eauto).
    simpl.
    destruct (Hbk _ _ Hbr) as [b Hb]. rewrite Hb. simpl.
    exists (PyBool (Book_is_available b)). unfold Book_is_available.
    split; [done|]. split_and!; try done.
    + split; [|by intros (b' & [= <-] & ->)].
      destruct (is_borrowed b) eqn:E; [done|]. eauto.
    + split; [|by intros (b' & [= <-] & ->)].
      destruct (is_borrowed b) eqn:E; [|done]. eauto.
  - rewrite (proj2 (DictFacts.mem_false i (books (lib st)))) by done. simpl.
    exists PyNone. split; [done|]. split_and!; try done.
    + split; [done|]. by intros (b & ? & _).
    + split; [done|]. by intros (b & ? & _).
Qed.

Lemma check_book_availability_three_valued_witness :
  closed demo_state ∧
  ∃ r, Library_check_book_availability demo_state "9787115428028" = Some r ∧
    (r = PyNone ↔ Dict.get "9787115428028" (books (lib demo_state)) = None) ∧
    (r = PyBool true ↔
       ∃ b, find_book demo_state "9787115428028" = Some b ∧ is_borrowed b = false) ∧
    (r = PyBool false ↔
       ∃ b, find_book demo_state "9787115428028" = Some b ∧ is_borrowed b = true) ∧
    PyNone ≠ PyBool false ∧ PyNone ≠ PyBool true ∧ PyBool true ≠ PyBool false.
Proof.
  split; [exact demo_closed|].
  exact (check_book_availability_three_valued demo_state "9787115428028"
           demo_closed).
Defined.

(** ** Removing a book *)

(** C9: [remove_book] returns [False] and changes nothing when the isbn is
    not in the catalog, returns [False] and changes nothing when the book is
    on loan (so the book stays in the catalog, on loan), and otherwise
    returns [True] with the isbn's entry deleted: the isbn is no longer in
    the catalog, every other entry is as before, and nothing else changes. *)
Theorem remove_book_cases st i :
  closed st →
  match Dict.get i (books (lib st)) with
  | None => Library_remove_book st i = Some (PyBool false, st)
  | Some br =>
      ∃ b, book_objs (heap st) !! br = Some b ∧
        if is_borrowed b then
          Library_remove_book st i = Some (PyBool false, st)
        else
          ∃ d, Library_remove_book st i
                 = Some (PyBool true, mkState (heap st) (with_books (lib st) d)) ∧
               Dict.get i d = None ∧
               (∀ k, k ≠ i → Dict.get k d = Dict.get k (books (lib st))) ∧
               sublist d (books (lib st))
  end.
Proof.
  intros [Hbk _]. unfold Library_remove_book, Dict.delitem.
  destruct (Dict.get i (books (lib st))) as [br|] eqn:Hbr; simpl.
  - rewrite (proj2 (DictFacts.mem_get i (books (lib st)))) by (rewrite Hbr; eauto).
    destruct (Hbk _ _ Hbr) as [b Hb]. rewrite Hb. simpl.
    exists b. split; [done|].
    destruct (is_borrowed b); [done|]. simpl.
    exists (Dict.del i (books (lib st))). split_and!; [done| | |].
    + apply DictFacts.get_del_eq.
    + intros k Hne. by apply DictFacts.get_del_ne.
    + apply DictFacts.del_sublist.
  - by rewrite (proj2 (DictFacts.mem_false i (books (lib st)))) by done.
Qed.

Lemma remove_book_cases_witness :
  closed demo_state ∧
  ∃ b, book_objs (heap demo_state) !! 0 = Some b ∧
    if is_borrowed b then
      Library_remove_book demo_state "9787115428028"
        = Some (PyBool false, demo_state)
    else
      ∃ d, Library_remove_book demo_state "9787115428028"
             = Some (PyBool true,
                     mkState (heap demo_state) (with_books (lib demo_state) d)) ∧
           Dict.get "9787115428028" d = None ∧
           (∀ k, k ≠ "9787115428028" →
                 Dict.get k d = Dict.get k (books (lib demo_state))) ∧
           sublist d (books (lib demo_state)).
Proof.
  split; [exact demo_closed|].
  exact (remove_book_cases demo_state "9787115428028" demo_closed).
Defined.

Example remove_book_on_loan :
  Library_remove_book demo_state "9787115428028"
  = Some (PyBool false, demo_state).
Proof. reflexivity. Qed.

Example remove_book_unknown :
  Library_remove_book demo_state "0" = Some (PyBool false, demo_state).
Proof. reflexivity. Qed.

Example remove_book_available :
  (λ p, (p.1, Dict.keys (books (lib p.2)))) <$>
    Library_remove_book demo_state "9787111407010"
  = Some (PyBool true, ["9787115428028"; "9787115454157"]).
Proof. reflexivity. Qed.

(** ** Searching *)

Lemma substring_startswith s p :
  startswith s p = true ↔ String.substring 0 (String.length p) s = p.
Proof.
  revert s. induction p as [|a p IH]; intros s; simpl.
  - by destruct s.
  - destruct s as [|b s]; simpl; [done|].
    case_decide as Hab.
    + subst b. rewrite IH. split; congruence.
    + split; [done|]. congruence.
Qed.

(** The scan of [str_in] finds [k] exactly when [k] occurs in [s]. *)
Lemma str_in_spec k s : str_in k s = true ↔ occurs_in k s.
Proof.
  unfold occurs_in. rewrite Exists_exists.
  induction s as [|a s IH]; simpl str_in.
  - rewrite orb_false_r, substring_startswith. split.
    + intros Hp. exists 0. split; [by left|done].
    + intros (n & Hn & Hp). destruct n as [|n]; [done|].
      simpl in Hn. by apply list_elem_of_singleton in Hn.
  - rewrite orb_true_iff, substring_startswith, IH. split.
    + intros [Hp|(n & Hn & Hp)].
      * exists 0. split; [by left|done].
      * exists (S n). split; [|done].
        apply elem_of_seq in Hn. apply elem_of_seq. simpl in *. lia.
    + intros (n & Hn & Hp). destruct n as [|n]; [by left|].
      right. exists n. split; [|done].
      apply elem_of_seq in Hn. apply elem_of_seq. simpl in *. lia.
Qed.

Lemma occurs_in_empty s : occurs_in "" s.
Proof. apply str_in_spec. by destruct s. Qed.

Lemma filter_all {A} (P : A → Prop) `{∀ x, Decision (P x)} (l : list A) :
  (∀ x, x ∈ l → P x) → filter P l = l.
Proof.
  induction l as [|x l IH]; intros Hall; [done|].
  rewrite filter_cons_True by (apply Hall; left).
  rewrite IH; [done|]. intros y Hy. apply Hall. by right.
Qed.

Section SearchSpec.
Variable lower : string → string.

Lemma book_matches_spec keyword k b :
  isbn b = k →
  book_matches lower (lower keyword) k b = true ↔ matches_keyword lower keyword b.
Proof.
  intros <-. unfold book_matches, matches_keyword.
  rewrite !orb_true_iff, !str_in_spec. tauto.
Qed.

Lemma search_loop_spec h keyword items results :
  (∀ k r, (k, r) ∈ items → ∃ b, book_objs h !! r = Some b ∧ isbn b = k) →
  search_loop lower h (lower keyword) items results
  = Some (results ++ (filter (selected lower h keyword) items).*2).
Proof.
  revert results. induction items as [|[k r] items IH]; intros results Hok.
  - simpl. by rewrite app_nil_r.
  - destruct (Hok k r) as (b & Hb & Hk); [left|].
    assert (Hrest : ∀ k' r', (k', r') ∈ items →
              ∃ b', book_objs h !! r' = Some b' ∧ isbn b' = k')
      by (intros; apply Hok; by right).
    simpl. rewrite Hb. simpl.
    destruct (book_matches lower (lower keyword) k b) eqn:Hm.
    + rewrite filter_cons_True.
      * rewrite IH by done. simpl. by rewrite <- app_assoc.
      * unfold selected. simpl. rewrite Hb. by apply (book_matches_spec _ k).
    + rewrite filter_cons_False; [by apply IH|].
      unfold selected. simpl. rewrite Hb. intros Hmk.
      apply (book_matches_spec _ k) in Hmk; [congruence|done].
Qed.

(** C10: in every reachable state [search_book(keyword)] returns the
    books of the catalog, in the catalog's insertion order, whose title,
    author or isbn, lower-cased, contains the lower-cased keyword as a
    substring; with the empty keyword, whose lower-casing is empty, it
    returns every book of the catalog. *)
Theorem search_book_matches st keyword :
  reachable st →
  Library_search_book lower st keyword = Some (search_spec lower st keyword) ∧
  (lower "" = "" →
   Library_search_book lower st "" = Some (Dict.values (books (lib st)))).
Proof.
  intros [_ [Hbk _ _ _]]%reachable_consistent.
  assert (Hs : ∀ kw,
    Library_search_book lower st kw = Some (search_spec lower st kw)).
  { intros kw. unfold Library_search_book, search_spec.
    by rewrite search_loop_spec. }
  split; [done|]. intros Hempty. rewrite Hs. f_equal.
  unfold search_spec, Dict.values, Dict.items. f_equal.
  apply filter_all. intros [k r] Hin.
  destruct (Hbk _ _ Hin) as (b & Hb & _). unfold selected. simpl. rewrite Hb.
  left. rewrite Hempty. apply occurs_in_empty.
Qed.
End SearchSpec.

Lemma search_book_matches_witness :
  reachable demo_state ∧
  lower_ascii "" = "" ∧
  Library_search_book lower_ascii demo_state "PYTHON"
    = Some (search_spec lower_ascii demo_state "PYTHON") ∧
  Library_search_book lower_ascii demo_state ""
    = Some (Dict.values (books (lib demo_state))).
Proof.
  split; [exact demo_reachable|]. split; [reflexivity|].
  split.
  - exact (proj1 (search_book_matches lower_ascii demo_state "PYTHON"
                    demo_reachable)).
  - exact (proj2 (search_book_matches lower_ascii demo_state "PYTHON"
                    demo_reachable) eq_refl).
Defined.

Example demo_search_spec_python :
  search_spec lower_ascii demo_state "PYTHON" = [0; 1].
Proof. vm_compute. reflexivity. Qed.

Example demo_search_empty :
  Library_search_book lower_ascii demo_state "" = Some [0; 1; 2].
Proof. reflexivity. Qed.

(** * Further properties *)

(** ** Books, users, catalog and log stay linked *)

Lemma fresh_linked name : linked (fresh name).
Proof. split; simpl; intros; by simplify_eq. Qed.

Lemma add_book_linked st t a i r st' :
  consistent st → linked st →
  Library_add_book st t a i = Some (r, st') → linked st'.
Proof.
  intros [[_ _ Hheld _] _] [Hho Hca Hre Hlo]. unfold Library_add_book.
  destruct (Dict.mem i (books (lib st))) eqn:Hm; simpl.
  { intros [= <- <-]. by split. }
  apply DictFacts.mem_false in Hm. intros [= <- <-].
  split; simpl.
  - intros br b ur [[_ Hb]|[_ <-]]%lookup_snoc_Some Hbo; [eauto|done].
  - intros br b [[_ Hb]|[_ <-]]%lookup_snoc_Some Hl; [|done].
    rewrite DictFacts.get_set_ne; [eauto|].
    intros ->. rewrite (Hca _ _ Hb Hl) in Hm. done.
  - done.
  - intros ur u br b Hu Hin Hb.
    destruct (Hheld _ _ _ Hu Hin) as (b0 & Hb0 & _).
    rewrite (lookup_app_l_Some _ _ _ _ Hb0) in Hb. injection Hb as <-. eauto.
Qed.

Lemma remove_book_linked st i r st' :
  linked st → Library_remove_book st i = Some (r, st') → linked st'.
Proof.
  intros [Hho Hca Hre Hlo]. unfold Library_remove_book, Dict.delitem.
  destruct (Dict.mem i (books (lib st))) eqn:Hm; simpl.
  2: { intros [= <- <-]. by split. }
  destruct (Dict.get i (books (lib st))) as [br0|] eqn:Hg; simpl; [|done].
  destruct (book_objs (heap st) !! br0) as [b0|] eqn:Hb0; simpl; [|done].
  destruct (is_borrowed b0) eqn:Hl0; simpl.
  { intros [= <- <-]. by split. }
  intros [= <- <-]. split; simpl; [done| |done|done].
  intros br b Hb Hl. rewrite DictFacts.get_del_ne; [eauto|].
  intros ->. rewrite (Hca _ _ Hb Hl) in Hg. injection Hg as ->. congruence.
Qed.

Lemma register_user_linked st n c r st' :
  linked st → Library_register_user st n c = Some (r, st') → linked st'.
Proof.
  intros [Hho Hca Hre Hlo]. unfold Library_register_user.
  destruct (Dict.mem c (users (lib st))) eqn:Hm; simpl.
  { intros [= <- <-]. by split. }
  apply DictFacts.mem_false in Hm. intros [= <- <-].
  split; simpl.
  - intros br b ur Hb Hbo. destruct (Hho _ _ _ Hb Hbo) as (u & Hu & ?).
    exists u. split; [|done]. by apply lookup_app_l_Some.
  - done.
  - intros ur u [[_ Hu]|[-> <-]]%lookup_snoc_Some.
    + rewrite DictFacts.get_set_ne; [eauto|].
      intros ->. rewrite (Hre _ _ Hu) in Hm. done.
    + simpl. apply DictFacts.get_set_eq.
  - intros ur u br b [[_ Hu]|[_ <-]]%lookup_snoc_Some Hin Hb; [eauto|].
    by apply elem_of_nil in Hin.
Qed.

Lemma borrow_book_linked st c i r st' :
  consistent st → linked st →
  Library_borrow_book st c i = Some (r, st') → linked st'.
Proof.
  intros [[_ _ Hheld _] [Hbk Hus _ _]] Hlk
    [[_ ->]|[_ (ur & br & u & b & Hur & Hbr & Hu & Hb & Hout & Hlib)]]
    %Library_borrow_book_inv; [done|].
  destruct Hlk as [Hho Hca Hre Hlo].
  assert (Hl : is_borrowed b = false).
  { inversion Hout as [| |u' b' Hu' _ Hb' Hl']. congruence. }
  assert (Hh : heap st' =
    mkHeap (<[br:=lent b ur]> (book_objs (heap st)))
           (<[ur:=with_borrowed_books u (borrowed_books u ++ [br])]>
              (user_objs (heap st)))).
  { inversion Hout as [| |u' b' Hu' _ Hb' Hl' Heq]. congruence. }
  destruct (Hbk _ _ (DictFacts.get_elem_of _ _ _ Hbr)) as (b1 & Hb1 & Hisbn).
  destruct (Hus _ _ (DictFacts.get_elem_of _ _ _ Hur)) as (u1 & Hu1 & Hcard).
  assert (b1 = b) as -> by congruence. assert (u1 = u) as -> by congruence.
  assert (Hfresh : ∀ ur' u' br', user_objs (heap st) !! ur' = Some u' →
            br' ∈ borrowed_books u' → br' ≠ br).
  { intros ur' u' br' Hu' Hin ->.
    destruct (Hheld _ _ _ Hu' Hin) as (b0 & Hb0 & Hl0 & _). congruence. }
  pose proof (lookup_lt_Some _ _ _ Hu) as Hlu.
  pose proof (lookup_lt_Some _ _ _ Hb) as Hlb.
  destruct st' as [h' l']. simpl in Hh, Hlib. subst h' l'. clear Hout.
  split; simpl.
  - intros br' b' ur' [(-> & <- & _)|[Hne Hb']]%list_lookup_insert_Some Hbo.
    + simpl in Hbo. injection Hbo as <-.
      eexists. split; [by apply list_lookup_insert_eq|].
      simpl. apply elem_of_app. right. by apply list_elem_of_singleton.
    + destruct (Hho _ _ _ Hb' Hbo) as (u' & Hu' & Hin).
      destruct (decide (ur = ur')) as [<-|Hneu].
      * eexists. split; [by apply list_lookup_insert_eq|].
        simpl. apply elem_of_app. left. congruence.
      * exists u'. by rewrite list_lookup_insert_ne.
  - intros br' b' [(-> & <- & _)|[Hne Hb']]%list_lookup_insert_Some Hl'.
    + simpl. congruence.
    + eauto.
  - intros ur' u' [(-> & <- & _)|[Hne Hu']]%list_lookup_insert_Some.
    + simpl. eauto.
    + eauto.
  - intros ur' u' br' b' Hu' Hin Hb'. apply elem_of_app.
    assert ((ur' = ur ∧ br' = br ∧ name u' = name u ∧ card_id u' = card_id u ∧
             title b' = title b ∧ isbn b' = isbn b) ∨
            (∃ u0, user_objs (heap st) !! ur' = Some u0 ∧
                   br' ∈ borrowed_books u0 ∧
                   name u' = name u0 ∧ card_id u' = card_id u0))
      as [(-> & -> & -> & -> & -> & ->)|(u0 & Hu0 & Hin0 & -> & ->)].
    { apply list_lookup_insert_Some in Hu' as [(-> & <- & _)|[Hne Hu']].
      - simpl in Hin. apply elem_of_app in Hin as [Hin|Heq%list_elem_of_singleton].
        + right. exists u. by split_and!.
        + subst br'. left. rewrite list_lookup_insert_eq in Hb' by done.
          injection Hb' as <-. by split_and!.
      - right. exists u'. by split_and!. }
    + right. apply list_elem_of_singleton. by rewrite Hcard, Hisbn.
    + left. rewrite list_lookup_insert_ne in Hb' by (intros <-; by eapply Hfresh).
      eauto.
Qed.

Lemma return_book_linked st c i r st' :
  consistent st → linked st →
  Library_return_book st c i = Some (r, st') → linked st'.
Proof.
  intros [[_ Hnd Hheld _] _] Hlk
    [Hlib [(_ & -> & _)|(ur & br & _ & _ & Hout)]]%Library_return_book_inv;
    [done|].
  destruct st' as [h' l']. simpl in Hlib, Hout. subst l'.
  inversion Hout as [u Hu Hn Heq|u b Hu Hin Hb Hl Heq|u b bs Hu Hin Hb Hl Hr Heq];
    subst; [by destruct st, Hlk|by destruct st, Hlk|].
  destruct Hlk as [Hho Hca Hre Hlo].
  destruct (list_remove_Some _ _ _ Hr) as (_ & _ & Hsub & Hrest).
  destruct (list_remove_NoDup _ _ _ (Hnd _ _ Hu) Hr) as [_ Hnotin].
  destruct (Hheld _ _ _ Hu Hin) as (b0 & Hb0 & _ & Hown).
  assert (b0 = b) as -> by congruence.
  pose proof (lookup_lt_Some _ _ _ Hu) as Hlu.
  assert (Hother : ∀ ur' u' br', user_objs (heap st) !! ur' = Some u' →
            br' ∈ borrowed_books u' → ur' ≠ ur → br' ≠ br).
  { intros ur' u' br' Hu' Hin' Hne ->.
    destruct (Hheld _ _ _ Hu' Hin') as (b1 & Hb1 & _ & Hown1). congruence. }
  split; simpl.
  - intros br' b' ur' [(-> & <- & _)|[Hne Hb']]%list_lookup_insert_Some Hbo;
      [done|].
    destruct (Hho _ _ _ Hb' Hbo) as (u' & Hu' & Hin').
    destruct (decide (ur = ur')) as [<-|Hneu].
    + eexists. split; [by apply list_lookup_insert_eq|].
      simpl. apply Hrest; [congruence|done].
    + exists u'. by rewrite list_lookup_insert_ne.
  - intros br' b' [(-> & <- & _)|[Hne Hb']]%list_lookup_insert_Some Hl';
      [done|eauto].
  - intros ur' u' [(-> & <- & _)|[Hne Hu']]%list_lookup_insert_Some;
      simpl; eauto.
  - intros ur' u' br' b' Hu' Hin' Hb'.
    apply list_lookup_insert_Some in Hu' as [(-> & <- & _)|[Hne Hu']].
    + simpl in *.
      rewrite list_lookup_insert_ne in Hb' by (by intros <-).
      eapply Hlo; [done| |done]. by apply (sublist_subseteq _ _ Hsub).
    + rewrite list_lookup_insert_ne in Hb'
        by (intros <-; by eapply (Hother ur' u')).
      eauto.
Qed.

Lemma step_linked st op r st' :
  consistent st → linked st → step st op = Some (r, st') → linked st'.
Proof.
  destruct op; simpl;
    eauto using add_book_linked, remove_book_linked, register_user_linked,
      borrow_book_linked, return_book_linked.
Qed.

Lemma reachable_linked st : reachable st → linked st.
Proof.
  induction 1 as [name|st op r st' Hr IH Hstep].
  - apply fresh_linked.
  - eapply step_linked; [by apply reachable_consistent|done|done].
Qed.

(** X16: in every reachable state the holder recorded in a book is a
    registered user, found under his own card id, whose [borrowed_books]
    lists that book. *)
Theorem holder_lists_book st br b ur :
  reachable st →
  book_objs (heap st) !! br = Some b →
  borrower b = Some ur →
  ∃ u, user_objs (heap st) !! ur = Some u ∧
       find_user st (card_id u) = Some u ∧
       br ∈ borrowed_books u.
Proof.
  intros [Hho _ Hre _]%reachable_linked Hb Hbo.
  destruct (Hho _ _ _ Hb Hbo) as (u & Hu & Hin). exists u.
  split_and!; [done| |done]. unfold find_user. by rewrite (Hre _ _ Hu).
Qed.

Lemma holder_lists_book_witness :
  reachable demo_state ∧
  book_objs (heap demo_state) !! 1 =
    Some (mkBook "Fluent Python" "Luciano Ramalho" "9787115454157" true (Some 1)) ∧
  Some 1 = Some 1 ∧
  ∃ u, user_objs (heap demo_state) !! 1 = Some u ∧
       find_user demo_state (card_id u) = Some u ∧
       1 ∈ borrowed_books u.
Proof.
  split; [exact demo_reachable|]. split; [reflexivity|]. split; [reflexivity|].
  exact (holder_lists_book demo_state 1 _ 1 demo_reachable eq_refl eq_refl).
Defined.

(** X17: in every reachable state a book held by a registered user is in
    the catalog under its own isbn, is on loan, and names that user as its
    holder; [remove_book] thus never takes a held book out of the catalog. *)
Theorem held_book_in_catalog st c u br :
  reachable st →
  find_user st c = Some u →
  br ∈ borrowed_books u →
  ∃ b, book_objs (heap st) !! br = Some b ∧
       Dict.get (isbn b) (books (lib st)) = Some br ∧
       find_book st (isbn b) = Some b ∧
       is_borrowed b = true ∧
       borrower b = Dict.get c (users (lib st)).
Proof.
  intros Hr Hu Hin. pose proof (reachable_linked _ Hr) as [_ Hca _ _].
  apply reachable_consistent in Hr as [[_ _ Hheld _] _].
  unfold find_user in Hu.
  destruct (Dict.get c (users (lib st))) as [ur|]; simpl in Hu; [|done].
  destruct (Hheld _ _ _ Hu Hin) as (b & Hb & Hl & Hown). exists b.
  split_and!; try done; [by apply Hca|].
  unfold find_book. rewrite (Hca _ _ Hb Hl). done.
Qed.

Lemma held_book_in_catalog_witness :
  reachable demo_state ∧
  find_user demo_state "2023001" = Some (mkUser "Zhang San" "2023001" [0] 5) ∧
  0 ∈ [0] ∧
  ∃ b, book_objs (heap demo_state) !! 0 = Some b ∧
       Dict.get (isbn b) (books (lib demo_state)) = Some 0 ∧
       find_book demo_state (isbn b) = Some b ∧
       is_borrowed b = true ∧
       borrower b = Dict.get "2023001" (users (lib demo_state)).
Proof.
  assert (H0 : 0 ∈ [0]) by left.
  split; [exact demo_reachable|]. split; [reflexivity|]. split; [exact H0|].
  exact (held_book_in_catalog demo_state "2023001" _ 0 demo_reachable eq_refl H0).
Defined.

(** X18: in every reachable state no book is in the [borrowed_books] of two
    different cards, and no list names a book twice. *)
Theorem book_held_once st c1 u1 c2 u2 br :
  reachable st →
  find_user st c1 = Some u1 →
  find_user st c2 = Some u2 →
  br ∈ borrowed_books u1 →
  br ∈ borrowed_books u2 →
  c1 = c2 ∧ NoDup (borrowed_books u1).
Proof.
  intros Hr Hu1 Hu2 Hin1 Hin2.
  apply reachable_consistent in Hr as [[_ Hnd Hheld _] [_ Hus _ _]].
  unfold find_user in Hu1, Hu2.
  destruct (Dict.get c1 (users (lib st))) as [ur1|] eqn:Hg1; simpl in Hu1; [|done].
  destruct (Dict.get c2 (users (lib st))) as [ur2|] eqn:Hg2; simpl in Hu2; [|done].
  destruct (Hheld _ _ _ Hu1 Hin1) as (b1 & Hb1 & _ & Hown1).
  destruct (Hheld _ _ _ Hu2 Hin2) as (b2 & Hb2 & _ & Hown2).
  assert (ur1 = ur2) as -> by congruence.
  destruct (Hus _ _ (DictFacts.get_elem_of _ _ _ Hg1)) as (v1 & Hv1 & <-).
  destruct (Hus _ _ (DictFacts.get_elem_of _ _ _ Hg2)) as (v2 & Hv2 & <-).
  split; [congruence|eauto].
Qed.

Lemma book_held_once_witness :
  reachable demo_state ∧
  find_user demo_state "2023002" = Some (mkUser "Li Si" "2023002" [1] 5) ∧
  find_user demo_state "2023002" = Some (mkUser "Li Si" "2023002" [1] 5) ∧
  1 ∈ [1] ∧ 1 ∈ [1] ∧
  "2023002" = "2023002" ∧ NoDup [1].
Proof.
  assert (H1 : 1 ∈ [1]) by left.
  split; [exact demo_reachable|]. split; [reflexivity|]. split; [reflexivity|].
  split; [exact H1|]. split; [exact H1|].
  exact (book_held_once demo_state "2023002" _ "2023002" _ 1 demo_reachable
           eq_refl eq_refl H1 H1).
Defined.

(** X19: in every reachable state each book a registered user holds has its
    record in the log: the user's name and card id, the book's title and
    isbn, and the placeholder time. *)
Theorem held_book_is_logged st c u br b :
  reachable st →
  find_user st c = Some u →
  br ∈ borrowed_books u →
  book_objs (heap st) !! br = Some b →
  mkLoanRecord (name u) c (title b) (isbn b) the_time ∈ borrow_records (lib st).
Proof.
  intros Hr Hu Hin Hb. pose proof (reachable_linked _ Hr) as [_ _ _ Hlo].
  apply reachable_consistent in Hr as [_ [_ Hus _ _]].
  unfold find_user in Hu.
  destruct (Dict.get c (users (lib st))) as [ur|] eqn:Hg; simpl in Hu; [|done].
  destruct (Hus _ _ (DictFacts.get_elem_of _ _ _ Hg)) as (v & Hv & <-).
  assert (v = u) as -> by congruence. eauto.
Qed.

Lemma held_book_is_logged_witness :
  reachable demo_state ∧
  find_user demo_state "2023001" = Some (mkUser "Zhang San" "2023001" [0] 5) ∧
  0 ∈ [0] ∧
  book_objs (heap demo_state) !! 0 =
    Some (mkBook "Python Crash Course" "Eric Matthes" "9787115428028" true (Some 0)) ∧
  mkLoanRecord "Zhang San" "2023001" "Python Crash Course" "9787115428028" the_time
    ∈ borrow_records (lib demo_state).
Proof.
  assert (H0 : 0 ∈ [0]) by left.
  split; [exact demo_reachable|]. split; [reflexivity|]. split; [exact H0|].
  split; [reflexivity|].
  exact (held_book_is_logged demo_state "2023001" _ 0 _ demo_reachable
           eq_refl H0 eq_refl).
Defined.

(** ** Calls that fail *)

(** X1: whatever the state and the method, a call that does not return
    [True] leaves the whole state as it was. *)
Theorem failed_call_changes_nothing st op r st' :
  step st op = Some (r, st') →
  r ≠ PyBool true →
  st' = st.
Proof.
  destruct op as [t a i|i|n c|c i|c i]; simpl.
  - unfold Library_add_book. destruct (Dict.mem _ _); simpl;
      intros [= <- <-]; done.
  - unfold Library_remove_book, Dict.delitem.
    destruct (Dict.mem _ _); simpl; [|by intros [= <- <-]].
    destruct (Dict.get _ _); simpl; [|done].
    destruct (_ !! _) as [b|]; simpl; [|done].
    destruct (is_borrowed b); simpl; intros [= <- <-]; done.
  - unfold Library_register_user. destruct (Dict.mem _ _); simpl;
      intros [= <- <-]; done.
  - intros [[_ ->]|[-> _]]%Library_borrow_book_inv; done.
  - intros [Hlib [(_ & -> & _)|(ur & br & _ & _ & Hout)]]
      %Library_return_book_inv Hr; [done|].
    destruct st as [h l], st' as [h' l']. simpl in *. subst l'.
    inversion Hout; subst; done.
Qed.

Lemma failed_call_changes_nothing_witness :
  step demo_state (BorrowBook "2023002" "9787115428028")
    = Some (PyBool false, demo_state) ∧
  PyBool false ≠ PyBool true ∧
  demo_state = demo_state.
Proof.
  assert (Hne : PyBool false ≠ PyBool true) by discriminate.
  split; [reflexivity|]. split; [exact Hne|].
  exact (failed_call_changes_nothing demo_state
           (BorrowBook "2023002" "9787115428028") _ _ eq_refl Hne).
Defined.

(** ** Adding books and registering users *)

(** X2: [add_book] with an isbn that is not in the catalog returns [True];
    afterwards the isbn denotes a new book with the given title and author,
    available and without holder, placed last in the catalog; the books
    under the other isbns, the users and the log are as before. *)
Theorem add_book_new st t a i :
  closed st →
  Dict.get i (books (lib st)) = None →
  ∃ st', Library_add_book st t a i = Some (PyBool true, st') ∧
    find_book st' i = Some (mkBook t a i false None) ∧
    Dict.keys (books (lib st')) = Dict.keys (books (lib st)) ++ [i] ∧
    (∀ k, k ≠ i → find_book st' k = find_book st k) ∧
    (∀ c, find_user st' c = find_user st c) ∧
    borrow_records (lib st') = borrow_records (lib st).
Proof.
  intros [Hbk _] Hn. unfold Library_add_book.
  rewrite (proj2 (DictFacts.mem_false _ _)) by done. simpl.
  eexists. split; [done|]. unfold find_book, find_user. simpl.
  split_and!; try done.
  - rewrite DictFacts.get_set_eq. simpl.
    apply lookup_snoc_Some. right. done.
  - rewrite DictFacts.set_fresh by done. unfold Dict.keys. by rewrite fmap_snoc.
  - intros k Hne. rewrite DictFacts.get_set_ne by done.
    destruct (Dict.get k (books (lib st))) as [r|] eqn:Hg; simpl; [|done].
    destruct (Hbk _ _ Hg) as [b Hb]. rewrite Hb. by apply lookup_app_l_Some.
Qed.

Lemma add_book_new_witness :
  closed demo_state ∧
  Dict.get "12345" (books (lib demo_state)) = None ∧
  ∃ st', Library_add_book demo_state "SICP" "Abelson" "12345"
           = Some (PyBool true, st') ∧
    find_book st' "12345" = Some (mkBook "SICP" "Abelson" "12345" false None) ∧
    Dict.keys (books (lib st')) = Dict.keys (books (lib demo_state)) ++ ["12345"] ∧
    (∀ k, k ≠ "12345" → find_book st' k = find_book demo_state k) ∧
    (∀ c, find_user st' c = find_user demo_state c) ∧
    borrow_records (lib st') = borrow_records (lib demo_state).
Proof.
  split; [exact demo_closed|]. split; [reflexivity|].
  exact (add_book_new demo_state "SICP" "Abelson" "12345" demo_closed eq_refl).
Defined.

(** X3: once [add_book] has succeeded for an isbn, a second [add_book] with
    that isbn returns [False] whatever title and author it gives, changes
    nothing, and the isbn still denotes the book added first. *)
Theorem add_book_twice st t a i st1 t' a' :
  Library_add_book st t a i = Some (PyBool true, st1) →
  Library_add_book st1 t' a' i = Some (PyBool false, st1) ∧
  find_book st1 i = Some (mkBook t a i false None).
Proof.
  unfold Library_add_book.
  destruct (Dict.mem i (books (lib st))) eqn:Hm; simpl; [done|].
  intros [= <-]. simpl. unfold find_book, Dict.mem. simpl.
  rewrite DictFacts.get_set_eq. simpl. split; [done|].
  apply lookup_snoc_Some. right. done.
Qed.

Lemma add_book_twice_witness :
  Library_add_book (fresh "L") "T" "A" "1"
    = Some (PyBool true,
            mkState (mkHeap [mkBook "T" "A" "1" false None] [])
                    (mkLibrary "L" [("1", 0)] [] [])) ∧
  Library_add_book
    (mkState (mkHeap [mkBook "T" "A" "1" false None] [])
             (mkLibrary "L" [("1", 0)] [] [])) "T2" "A2" "1"
    = Some (PyBool false,
            mkState (mkHeap [mkBook "T" "A" "1" false None] [])
                    (mkLibrary "L" [("1", 0)] [] [])) ∧
  find_book (mkState (mkHeap [mkBook "T" "A" "1" false None] [])
                     (mkLibrary "L" [("1", 0)] [] [])) "1"
    = Some (mkBook "T" "A" "1" false None).
Proof.
  split; [reflexivity|].
  exact (add_book_twice (fresh "L") "T" "A" "1" _ "T2" "A2" eq_refl).
Defined.

(** X4: [register_user] with a card id that is not registered returns
    [True]; afterwards the card id denotes a new user with the given name,
    no books and the limit 5, placed last among the users; a second
    [register_user] with that card id returns [False] and changes nothing;
    the other users, the books and the log are as before. *)
Theorem register_user_new st n c :
  closed st →
  Dict.get c (users (lib st)) = None →
  ∃ st', Library_register_user st n c = Some (PyBool true, st') ∧
    find_user st' c = Some (mkUser n c [] 5) ∧
    Dict.keys (users (lib st')) = Dict.keys (users (lib st)) ++ [c] ∧
    (∀ n', Library_register_user st' n' c = Some (PyBool false, st')) ∧
    (∀ k, k ≠ c → find_user st' k = find_user st k) ∧
    (∀ i, find_book st' i = find_book st i) ∧
    borrow_records (lib st') = borrow_records (lib st).
Proof.
  intros [_ Hus] Hn. unfold Library_register_user.
  rewrite (proj2 (DictFacts.mem_false _ _)) by done. simpl.
  eexists. split; [done|]. unfold find_book, find_user, Dict.mem. simpl.
  split_and!; try done.
  - rewrite DictFacts.get_set_eq. simpl.
    apply lookup_snoc_Some. right. done.
  - rewrite DictFacts.set_fresh by done. unfold Dict.keys. by rewrite fmap_snoc.
  - intros n'. by rewrite DictFacts.get_set_eq.
  - intros k Hne. rewrite DictFacts.get_set_ne by done.
    destruct (Dict.get k (users (lib st))) as [r|] eqn:Hg; simpl; [|done].
    destruct (Hus _ _ Hg) as [u Hu]. rewrite Hu. by apply lookup_app_l_Some.
Qed.

Lemma register_user_new_witness :
  closed demo_state ∧
  Dict.get "2023009" (users (lib demo_state)) = None ∧
  ∃ st', Library_register_user demo_state "Wang Wu" "2023009"
           = Some (PyBool true, st') ∧
    find_user st' "2023009" = Some (mkUser "Wang Wu" "2023009" [] 5) ∧
    Dict.keys (users (lib st')) = Dict.keys (users (lib demo_state)) ++ ["2023009"] ∧
    (∀ n', Library_register_user st' n' "2023009" = Some (PyBool false, st')) ∧
    (∀ k, k ≠ "2023009" → find_user st' k = find_user demo_state k) ∧
    (∀ i, find_book st' i = find_book demo_state i) ∧
    borrow_records (lib st') = borrow_records (lib demo_state).
Proof.
  split; [exact demo_closed|]. split; [reflexivity|].
  exact (register_user_new demo_state "Wang Wu" "2023009" demo_closed eq_refl).
Defined.

(** X5: after [remove_book] has succeeded for an isbn,
    [check_book_availability] answers [None] for it, and [add_book] with
    that isbn succeeds again and puts a new, available book under it. *)
Theorem remove_then_add st i st1 t a :
  Library_remove_book st i = Some (PyBool true, st1) →
  Library_check_book_availability st1 i = Some PyNone ∧
  ∃ st2, Library_add_book st1 t a i = Some (PyBool true, st2) ∧
         find_book st2 i = Some (mkBook t a i false None) ∧
         Library_check_book_availability st2 i = Some (PyBool true).
Proof.
  unfold Library_remove_book, Dict.delitem.
  destruct (Dict.mem i (books (lib st))) eqn:Hm; simpl; [|done].
  destruct (Dict.get i (books (lib st))) as [br|]; simpl; [|done].
  destruct (book_objs (heap st) !! br) as [b|]; simpl; [|done].
  destruct (is_borrowed b); simpl; [done|]. intros [= <-].
  unfold Library_check_book_availability, Library_add_book, find_book, Dict.mem.
  simpl. rewrite DictFacts.get_del_eq. simpl. split; [done|].
  eexists. split; [done|]. simpl. rewrite DictFacts.get_set_eq. simpl.
  assert (Hnew : (book_objs (heap st) ++ [Book_init t a i])
                   !! length (book_objs (heap st)) = Some (Book_init t a i))
    by (apply lookup_snoc_Some; right; done).
  rewrite Hnew. done.
Qed.

Lemma remove_then_add_witness :
  Library_remove_book demo_state "9787111407010"
    = Some (PyBool true,
            default demo_state
              (snd <$> Library_remove_book demo_state "9787111407010")) ∧
  Library_check_book_availability
    (default demo_state (snd <$> Library_remove_book demo_state "9787111407010"))
    "9787111407010" = Some PyNone ∧
  ∃ st2,
    Library_add_book
      (default demo_state (snd <$> Library_remove_book demo_state "9787111407010"))
      "CLRS" "Cormen" "9787111407010" = Some (PyBool true, st2) ∧
    find_book st2 "9787111407010"
      = Some (mkBook "CLRS" "Cormen" "9787111407010" false None) ∧
    Library_check_book_availability st2 "9787111407010" = Some (PyBool true).
Proof.
  split; [reflexivity|].
  exact (remove_then_add demo_state "9787111407010" _ "CLRS" "Cormen" eq_refl).
Defined.

(** ** When borrowing and returning succeed, and what they change *)

Lemma list_remove_split x l r :
  list_remove x l = Some r →
  ∃ l1 l2, l = l1 ++ x :: l2 ∧ r = l1 ++ l2 ∧ x ∉ l1.
Proof.
  revert r. induction l as [|y l IH]; simpl; intros r; [done|].
  case_decide as Hxy.
  - intros [= <-]. subst y. exists [], l. split_and!; [done..|].
    apply not_elem_of_nil.
  - destruct (list_remove x l) as [r'|]; [|done]. intros [= <-].
    destruct (IH r' eq_refl) as (l1 & l2 & -> & -> & Hnin).
    exists (y :: l1), l2. split_and!; [done..|].
    by apply not_elem_of_cons.
Qed.

Lemma borrow_book_possible st c i u b :
  find_user st c = Some u →
  find_book st i = Some b →
  length (borrowed_books u) < max_borrow_limit u →
  is_borrowed b = false →
  ∃ st', Library_borrow_book st c i = Some (PyBool true, st').
Proof.
  intros Hu Hb Hlt Hl. unfold find_user, find_book in *.
  destruct (Dict.get c (users (lib st))) as [ur|] eqn:Hur; simpl in Hu; [|done].
  destruct (Dict.get i (books (lib st))) as [br|] eqn:Hbr; simpl in Hb; [|done].
  apply User_can_borrow_more_lt in Hlt.
  pose proof (borrow_done _ _ _ _ _ Hu Hlt Hb Hl) as Hout.
  apply User_borrow_book_outcome in Hout.
  unfold Library_borrow_book, Dict.mem. rewrite Hur, Hbr. simpl.
  rewrite Hout. simpl.
  rewrite list_lookup_insert_eq by (by eapply lookup_lt_Some). simpl.
  rewrite list_lookup_insert_eq by (by eapply lookup_lt_Some). simpl.
  eauto.
Qed.

(** X6: [borrow_book] returns [True] exactly when the card id is
    registered, the isbn is in the catalog, the user holds fewer books than
    his limit and the book is not on loan. *)
Theorem borrow_book_succeeds_iff st c i :
  (∃ st', Library_borrow_book st c i = Some (PyBool true, st')) ↔
  ∃ u b, find_user st c = Some u ∧ find_book st i = Some b ∧
         length (borrowed_books u) < max_borrow_limit u ∧
         is_borrowed b = false.
Proof.
  split.
  - intros [st' [[? _]|[_ (ur & br & u & b & Hur & Hbr & Hu & Hb & Hout & _)]]
      %Library_borrow_book_inv]; [done|].
    exists u, b. unfold find_user, find_book. rewrite Hur, Hbr. simpl.
    inversion Hout as [| |u' b' Hu' Hc Hb' Hl]. simplify_eq.
    by apply User_can_borrow_more_lt in Hc.
  - intros (u & b & Hu & Hb & Hlt & Hl). by eapply borrow_book_possible.
Qed.

(** X7: a [borrow_book] that returns [True] marks the book on loan with the
    user as holder and puts it last in the user's [borrowed_books]; every
    other book and every other user is as before, and so are the two
    dictionaries. *)
Theorem borrow_book_effect st c i st' :
  Library_borrow_book st c i = Some (PyBool true, st') →
  ∃ ur br u b,
    Dict.get c (users (lib st)) = Some ur ∧
    Dict.get i (books (lib st)) = Some br ∧
    user_objs (heap st) !! ur = Some u ∧
    book_objs (heap st) !! br = Some b ∧
    book_objs (heap st') !! br
      = Some (mkBook (title b) (author b) (isbn b) true (Some ur)) ∧
    user_objs (heap st') !! ur
      = Some (mkUser (name u) (card_id u) (borrowed_books u ++ [br])
                     (max_borrow_limit u)) ∧
    (∀ br', br' ≠ br → book_objs (heap st') !! br' = book_objs (heap st) !! br') ∧
    (∀ ur', ur' ≠ ur → user_objs (heap st') !! ur' = user_objs (heap st) !! ur') ∧
    books (lib st') = books (lib st) ∧
    users (lib st') = users (lib st).
Proof.
  intros [[? _]|[_ (ur & br & u & b & Hur & Hbr & Hu & Hb & Hout & Hlib)]]
    %Library_borrow_book_inv; [done|].
  exists ur, br, u, b.
  pose proof (lookup_lt_Some _ _ _ Hu). pose proof (lookup_lt_Some _ _ _ Hb).
  inversion Hout as [| |u' b' Hu' Hc Hb' Hl Heq]. simplify_eq.
  rewrite Hlib. simpl.
  split_and!; try done.
  - by apply list_lookup_insert_eq.
  - by apply list_lookup_insert_eq.
  - intros br' Hne. by apply list_lookup_insert_ne.
  - intros ur' Hne. by apply list_lookup_insert_ne.
Qed.

Lemma borrow_book_effect_witness :
  Library_borrow_book demo_state "2023001" "9787111407010"
    = Some (PyBool true,
            default demo_state
              (snd <$> Library_borrow_book demo_state "2023001" "9787111407010")) ∧
  ∃ ur br u b,
    Dict.get "2023001" (users (lib demo_state)) = Some ur ∧
    Dict.get "9787111407010" (books (lib demo_state)) = Some br ∧
    user_objs (heap demo_state) !! ur = Some u ∧
    book_objs (heap demo_state) !! br = Some b ∧
    book_objs (heap (default demo_state
        (snd <$> Library_borrow_book demo_state "2023001" "9787111407010"))) !! br
      = Some (mkBook (title b) (author b) (isbn b) true (Some ur)) ∧
    user_objs (heap (default demo_state
        (snd <$> Library_borrow_book demo_state "2023001" "9787111407010"))) !! ur
      = Some (mkUser (name u) (card_id u) (borrowed_books u ++ [br])
                     (max_borrow_limit u)) ∧
    (∀ br', br' ≠ br →
       book_objs (heap (default demo_state
         (snd <$> Library_borrow_book demo_state "2023001" "9787111407010"))) !! br'
       = book_objs (heap demo_state) !! br') ∧
    (∀ ur', ur' ≠ ur →
       user_objs (heap (default demo_state
         (snd <$> Library_borrow_book demo_state "2023001" "9787111407010"))) !! ur'
       = user_objs (heap demo_state) !! ur') ∧
    books (lib (default demo_state
      (snd <$> Library_borrow_book demo_state "2023001" "9787111407010")))
      = books (lib demo_state) ∧
    users (lib (default demo_state
      (snd <$> Library_borrow_book demo_state "2023001" "9787111407010")))
      = users (lib demo_state).
Proof.
  split; [reflexivity|].
  exact (borrow_book_effect demo_state "2023001" "9787111407010" _ eq_refl).
Defined.

(** X8: in every reachable state [return_book] returns [True] exactly when
    the card id is registered, the isbn is in the catalog and the user's
    [borrowed_books] lists the book. *)
Theorem return_book_succeeds_iff st c i :
  reachable st →
  (∃ st', Library_return_book st c i = Some (PyBool true, st')) ↔
  ∃ u br, find_user st c = Some u ∧
          Dict.get i (books (lib st)) = Some br ∧
          br ∈ borrowed_books u.
Proof.
  intros [[_ _ Hheld _] _]%reachable_consistent. split.
  - intros [st' [_ [(? & _)|(ur & br & Hur & Hbr & Hout)]]
      %Library_return_book_inv]; [done|].
    inversion Hout as [| |u b bs Hu Hin Hb Hl Hr]. exists u, br.
    unfold find_user. rewrite Hur. done.
  - intros (u & br & Hu & Hbr & Hin). unfold find_user in Hu.
    destruct (Dict.get c (users (lib st))) as [ur|] eqn:Hur; simpl in Hu; [|done].
    destruct (Hheld _ _ _ Hu Hin) as (b & Hb & Hl & _).
    destruct (list_remove_is_Some _ _ Hin) as [bs Hr].
    pose proof (return_done _ _ _ _ _ _ Hu Hin Hb Hl Hr) as Hout.
    apply User_return_book_outcome in Hout.
    unfold Library_return_book, Dict.mem. rewrite Hur, Hbr. simpl.
    rewrite Hout. eauto.
Qed.

Lemma return_book_succeeds_iff_witness :
  reachable demo_state ∧
  ((∃ st', Library_return_book demo_state "2023001" "9787115428028"
             = Some (PyBool true, st')) ↔
   ∃ u br, find_user demo_state "2023001" = Some u ∧
           Dict.get "9787115428028" (books (lib demo_state)) = Some br ∧
           br ∈ borrowed_books u).
Proof.
  split; [exact demo_reachable|].
  exact (return_book_succeeds_iff demo_state "2023001" "9787115428028"
           demo_reachable).
Defined.

(** X9: a [return_book] that returns [True] marks the book available with
    no holder and takes its first occurrence out of the user's
    [borrowed_books], the other entries keeping their order; every other
    book and every other user is as before, and the library object with its
    log is untouched. *)
Theorem return_book_effect st c i st' :
  Library_return_book st c i = Some (PyBool true, st') →
  ∃ ur br u b l1 l2,
    Dict.get c (users (lib st)) = Some ur ∧
    Dict.get i (books (lib st)) = Some br ∧
    user_objs (heap st) !! ur = Some u ∧
    book_objs (heap st) !! br = Some b ∧
    borrowed_books u = l1 ++ br :: l2 ∧
    (br ∉ l1) ∧
    book_objs (heap st') !! br
      = Some (mkBook (title b) (author b) (isbn b) false None) ∧
    user_objs (heap st') !! ur
      = Some (mkUser (name u) (card_id u) (l1 ++ l2) (max_borrow_limit u)) ∧
    (∀ br', br' ≠ br → book_objs (heap st') !! br' = book_objs (heap st) !! br') ∧
    (∀ ur', ur' ≠ ur → user_objs (heap st') !! ur' = user_objs (heap st) !! ur') ∧
    lib st' = lib st.
Proof.
  intros [Hlib [(? & _)|(ur & br & Hur & Hbr & Hout)]]%Library_return_book_inv;
    [done|].
  inversion Hout as [| |u b bs Hu Hin Hb Hl Hr Heq].
  destruct (list_remove_split _ _ _ Hr) as (l1 & l2 & Hl12 & -> & Hnin).
  pose proof (lookup_lt_Some _ _ _ Hu). pose proof (lookup_lt_Some _ _ _ Hb).
  exists ur, br, u, b, l1, l2. split_and!; try done; simpl.
  - by apply list_lookup_insert_eq.
  - by apply list_lookup_insert_eq.
  - intros br' Hne. by apply list_lookup_insert_ne.
  - intros ur' Hne. by apply list_lookup_insert_ne.
Qed.

Lemma return_book_effect_witness :
  Library_return_book demo_state "2023001" "9787115428028"
    = Some (PyBool true,
            default demo_state
              (snd <$> Library_return_book demo_state "2023001" "9787115428028")) ∧
  ∃ ur br u b l1 l2,
    Dict.get "2023001" (users (lib demo_state)) = Some ur ∧
    Dict.get "9787115428028" (books (lib demo_state)) = Some br ∧
    user_objs (heap demo_state) !! ur = Some u ∧
    book_objs (heap demo_state) !! br = Some b ∧
    borrowed_books u = l1 ++ br :: l2 ∧
    (br ∉ l1) ∧
    book_objs (heap (default demo_state
        (snd <$> Library_return_book demo_state "2023001" "9787115428028"))) !! br
      = Some (mkBook (title b) (author b) (isbn b) false None) ∧
    user_objs (heap (default demo_state
        (snd <$> Library_return_book demo_state "2023001" "9787115428028"))) !! ur
      = Some (mkUser (name u) (card_id u) (l1 ++ l2) (max_borrow_limit u)) ∧
    (∀ br', br' ≠ br →
       book_objs (heap (default demo_state
         (snd <$> Library_return_book demo_state "2023001" "9787115428028"))) !! br'
       = book_objs (heap demo_state) !! br') ∧
    (∀ ur', ur' ≠ ur →
       user_objs (heap (default demo_state
         (snd <$> Library_return_book demo_state "2023001" "9787115428028"))) !! ur'
       = user_objs (heap demo_state) !! ur') ∧
    lib (default demo_state
      (snd <$> Library_return_book demo_state "2023001" "9787115428028"))
      = lib demo_state.
Proof.
  split; [reflexivity|].
  exact (return_book_effect demo_state "2023001" "9787115428028" _ eq_refl).
Defined.

(** ** Availability follows the loans *)

(** X10: right after a [borrow_book] that returned [True],
    [check_book_availability] answers [False] for that isbn; right after a
    [return_book] that returned [True], it answers [True]. *)
Theorem availability_after_loan st c i st' :
  (Library_borrow_book st c i = Some (PyBool true, st') →
   Library_check_book_availability st' i = Some (PyBool false)) ∧
  (Library_return_book st c i = Some (PyBool true, st') →
   Library_check_book_availability st' i = Some (PyBool true)).
Proof.
  unfold Library_check_book_availability, Dict.mem. split.
  - intros [[? _]|[_ (ur & br & u & b & Hur & Hbr & Hu & Hb & Hout & Hlib)]]
      %Library_borrow_book_inv; [done|].
    pose proof (lookup_lt_Some _ _ _ Hb).
    inversion Hout as [| |u' b' Hu' Hc Hb' Hl Heq]. simplify_eq.
    rewrite Hlib. simpl. rewrite Hbr. simpl.
    by rewrite list_lookup_insert_eq.
  - intros [Hlib [(? & _)|(ur & br & Hur & Hbr & Hout)]]
      %Library_return_book_inv; [done|].
    inversion Hout as [| |u b bs Hu Hin Hb Hl Hr Heq].
    pose proof (lookup_lt_Some _ _ _ Hb).
    rewrite Hlib, Hbr. simpl. by rewrite list_lookup_insert_eq.
Qed.

Lemma availability_after_loan_witness :
  Library_borrow_book demo_state "2023001" "9787111407010"
    = Some (PyBool true,
            default demo_state
              (snd <$> Library_borrow_book demo_state "2023001" "9787111407010")) ∧
  Library_check_book_availability
    (default demo_state
       (snd <$> Library_borrow_book demo_state "2023001" "9787111407010"))
    "9787111407010" = Some (PyBool false).
Proof.
  split; [reflexivity|].
  exact (proj1 (availability_after_loan demo_state "2023001" "9787111407010" _)
           eq_refl).
Defined.

(** X11: when [check_book_availability] answers [True] for an isbn, a
    registered user who holds fewer books than his limit gets the book:
    [borrow_book] returns [True]. *)
Theorem available_book_can_be_borrowed st c i u :
  Library_check_book_availability st i = Some (PyBool true) →
  find_user st c = Some u →
  length (borrowed_books u) < max_borrow_limit u →
  ∃ st', Library_borrow_book st c i = Some (PyBool true, st').
Proof.
  intros Hck Hu Hlt.
  assert (∃ b, find_book st i = Some b ∧ is_borrowed b = false)
    as (b & Hb & Hl).
  { unfold Library_check_book_availability, Dict.mem, find_book in *.
    destruct (Dict.get i (books (lib st))) as [br|]; simpl in *; [|done].
    destruct (book_objs (heap st) !! br) as [b|]; simpl in *; [|done].
    exists b. split; [done|].
    injection Hck as Hav. unfold Book_is_available in Hav.
    by destruct (is_borrowed b). }
  by eapply borrow_book_possible.
Qed.

Lemma available_book_can_be_borrowed_witness :
  Library_check_book_availability demo_state "9787111407010"
    = Some (PyBool true) ∧
  find_user demo_state "2023002" = Some (mkUser "Li Si" "2023002" [1] 5) ∧
  1 < 5 ∧
  ∃ st', Library_borrow_book demo_state "2023002" "9787111407010"
           = Some (PyBool true, st').
Proof.
  assert (H15 : 1 < 5) by lia.
  split; [reflexivity|]. split; [reflexivity|]. split; [exact H15|].
  exact (available_book_can_be_borrowed demo_state "2023002" "9787111407010" _
           eq_refl eq_refl H15).
Defined.

(** ** The status of a book *)

(** X12: in every reachable state [get_status] of a book gives its title,
    author and isbn; for a book that is not on loan the status is the
    available label and the borrower is the "none" label; for a book on loan
    the status is the on-loan label and the borrower is the name of the user
    who holds it. *)
Theorem get_status_consistent st br b :
  reachable st →
  book_objs (heap st) !! br = Some b →
  if is_borrowed b then
    ∃ ur u, borrower b = Some ur ∧
            user_objs (heap st) !! ur = Some u ∧
            br ∈ borrowed_books u ∧
            Book_get_status (heap st) b
              = Some (mkBookStatus (title b) (author b) (isbn b) "已借出" (name u))
  else
    Book_get_status (heap st) b
      = Some (mkBookStatus (title b) (author b) (isbn b) "可借阅" "无").
Proof.
  intros Hr Hb. pose proof (reachable_linked _ Hr) as [Hho _ _ _].
  apply reachable_consistent in Hr as [[_ _ _ Hflag] _].
  pose proof (Hflag _ _ Hb) as Hfl. unfold Book_get_status.
  destruct (is_borrowed b) eqn:Hl; simpl.
  - destruct (proj1 Hfl eq_refl) as [ur Hbo].
    destruct (Hho _ _ _ Hb Hbo) as (u & Hu & Hin).
    exists ur, u. rewrite Hbo, Hu. done.
  - destruct (borrower b) as [ur|] eqn:Hbo; [|done].
    assert (false = true) by (apply Hfl; eauto). done.
Qed.

Lemma get_status_consistent_witness :
  reachable demo_state ∧
  book_objs (heap demo_state) !! 0 =
    Some (mkBook "Python Crash Course" "Eric Matthes" "9787115428028" true (Some 0)) ∧
  ∃ ur u, Some 0 = Some ur ∧
          user_objs (heap demo_state) !! ur = Some u ∧
          0 ∈ borrowed_books u ∧
          Book_get_status (heap demo_state)
            (mkBook "Python Crash Course" "Eric Matthes" "9787115428028" true (Some 0))
            = Some (mkBookStatus "Python Crash Course" "Eric Matthes"
                      "9787115428028" "已借出" (name u)).
Proof.
  split; [exact demo_reachable|]. split; [reflexivity|].
  exact (get_status_consistent demo_state 0 _ demo_reachable eq_refl).
Defined.

Example demo_get_status :
  Book_get_status (heap demo_state) <$> book_objs (heap demo_state)
  = [Some (mkBookStatus "Python Crash Course" "Eric Matthes" "9787115428028"
             "已借出" "Zhang San");
     Some (mkBookStatus "Fluent Python" "Luciano Ramalho" "9787115454157"
             "已借出" "Li Si");
     Some (mkBookStatus "Introduction to Algorithms" "Thomas H. Cormen"
             "9787111407010" "可借阅" "无")].
Proof. reflexivity. Qed.

(** ** What no call undoes *)

Lemma step_heap_ext st op r st' :
  step st op = Some (r, st') → heap_ext (heap st) (heap st').
Proof.
  destruct op as [t a i|i|n c|c i|c i]; simpl.
  - unfold Library_add_book. destruct (Dict.mem _ _); simpl;
      intros [= <- <-]; [apply heap_ext_refl|].
    split; simpl; [|by eauto 10]. intros r b Hb. exists b.
    split; [by apply lookup_app_l_Some|done].
  - unfold Library_remove_book, Dict.delitem.
    destruct (Dict.mem _ _); simpl; [|intros [= <- <-]; apply heap_ext_refl].
    destruct (Dict.get _ _); simpl; [|done].
    destruct (_ !! _) as [b|]; simpl; [|done].
    destruct (is_borrowed b); simpl; intros [= <- <-]; apply heap_ext_refl.
  - unfold Library_register_user. destruct (Dict.mem _ _); simpl;
      intros [= <- <-]; [apply heap_ext_refl|].
    split; simpl; [by eauto 10|]. intros r u Hu. exists u.
    split; [by apply lookup_app_l_Some|done].
  - intros [[_ ->]|[_ (ur & br & u & b & _ & _ & _ & _ & Hout & _)]]
      %Library_borrow_book_inv; [apply heap_ext_refl|].
    by eapply borrow_outcome_ext.
  - intros [_ [(_ & -> & _)|(ur & br & _ & _ & Hout)]]%Library_return_book_inv;
      [apply heap_ext_refl|].
    by eapply return_outcome_ext.
Qed.

Lemma step_users_kept st op r st' c ur :
  step st op = Some (r, st') →
  Dict.get c (users (lib st)) = Some ur →
  Dict.get c (users (lib st')) = Some ur.
Proof.
  destruct op as [t a i|i|n c0|c0 i|c0 i]; simpl.
  - unfold Library_add_book. destruct (Dict.mem _ _); simpl;
      by intros [= <- <-].
  - unfold Library_remove_book, Dict.delitem.
    destruct (Dict.mem _ _); simpl; [|by intros [= <- <-]].
    destruct (Dict.get _ _); simpl; [|done].
    destruct (_ !! _) as [b|]; simpl; [|done].
    destruct (is_borrowed b); simpl; by intros [= <- <-].
  - unfold Library_register_user.
    destruct (Dict.mem c0 (users (lib st))) eqn:Hm; simpl;
      intros [= <- <-]; [done|]. simpl. intros Hg.
    rewrite DictFacts.get_set_ne; [done|].
    intros ->. apply DictFacts.mem_false in Hm. congruence.
  - intros [[_ ->]|[_ (? & ? & ? & ? & _ & _ & _ & _ & _ & ->)]]
      %Library_borrow_book_inv; done.
  - by intros [-> _]%Library_return_book_inv.
Qed.

(** X13: no sequence of calls unregisters a user or changes his name or
    card id: a card id that denotes a user before the calls denotes a user
    with the same name and card id after them. *)
Theorem registered_user_stays st ops rs st' c u :
  run st ops = Some (rs, st') →
  find_user st c = Some u →
  ∃ u', find_user st' c = Some u' ∧ name u' = name u ∧ card_id u' = card_id u.
Proof.
  revert st rs st' u. induction ops as [|op ops IH]; simpl; intros st rs st' u.
  - intros [= _ <-] Hu. eauto.
  - destruct (step st op) as [[r st1]|] eqn:Hs; [|done].
    destruct (run st1 ops) as [[rs' st2]|] eqn:Hrun; [|done].
    intros [= _ <-] Hu. unfold find_user in Hu.
    destruct (Dict.get c (users (lib st))) as [ur|] eqn:Hg; simpl in Hu; [|done].
    destruct (step_heap_ext _ _ _ _ Hs) as [_ Hext].
    destruct (Hext _ _ Hu) as (u1 & Hu1 & Hc1 & Hn1).
    destruct (IH st1 rs' st2 u1 Hrun) as (u' & Hu' & Hn' & Hc').
    { unfold find_user. rewrite (step_users_kept _ _ _ _ _ _ Hs Hg). done. }
    exists u'. split_and!; [done|congruence..].
Qed.

Lemma registered_user_stays_witness :
  run demo_state [ReturnBook "2023001" "9787115428028";
                  RemoveBook "9787115428028";
                  RegisterUser "Zhang" "2023001"]
    = Some ([PyBool true; PyBool true; PyBool false],
            default demo_state
              (snd <$> run demo_state [ReturnBook "2023001" "9787115428028";
                                       RemoveBook "9787115428028";
                                       RegisterUser "Zhang" "2023001"])) ∧
  find_user demo_state "2023001" = Some (mkUser "Zhang San" "2023001" [0] 5) ∧
  ∃ u', find_user
          (default demo_state
             (snd <$> run demo_state [ReturnBook "2023001" "9787115428028";
                                      RemoveBook "9787115428028";
                                      RegisterUser "Zhang" "2023001"]))
          "2023001" = Some u' ∧
        name u' = "Zhang San" ∧ card_id u' = "2023001".
Proof.
  split; [reflexivity|]. split; [reflexivity|].
  exact (registered_user_stays demo_state
           [ReturnBook "2023001" "9787115428028";
            RemoveBook "9787115428028";
            RegisterUser "Zhang" "2023001"]
           [PyBool true; PyBool true; PyBool false] _ "2023001" _
           eq_refl eq_refl).
Defined.

(** X14: a call keeps every book of the catalog under its isbn with the
    same title, author and isbn, unless it is a [remove_book] of that isbn
    that returns [True]. *)
Theorem book_stays_unless_removed st op r st' i b :
  step st op = Some (r, st') →
  find_book st i = Some b →
  (op = RemoveBook i ∧ r = PyBool true) ∨
  ∃ b', find_book st' i = Some b' ∧
        title b' = title b ∧ author b' = author b ∧ isbn b' = isbn b.
Proof.
  intros Hs Hb. unfold find_book in Hb.
  destruct (Dict.get i (books (lib st))) as [br|] eqn:Hg; simpl in Hb; [|done].
  destruct (step_heap_ext _ _ _ _ Hs) as [Hext _].
  destruct (Hext _ _ Hb) as (b' & Hb' & Hi & Ht & Ha).
  assert (Hkeep : Dict.get i (books (lib st')) = Some br →
            ∃ b', find_book st' i = Some b' ∧
                  title b' = title b ∧ author b' = author b ∧ isbn b' = isbn b).
  { intros Hg'. exists b'. unfold find_book. rewrite Hg'. done. }
  destruct op as [t a i0|i0|n c|c i0|c i0]; simpl in Hs.
  - right. apply Hkeep. revert Hs. unfold Library_add_book.
    destruct (Dict.mem i0 (books (lib st))) eqn:Hm; simpl;
      intros [= <- <-]; [done|]. simpl.
    rewrite DictFacts.get_set_ne; [done|].
    intros ->. apply DictFacts.mem_false in Hm. congruence.
  - revert Hs. unfold Library_remove_book, Dict.delitem.
    destruct (Dict.mem _ _); simpl; [|intros [= <- <-]; right; by apply Hkeep].
    destruct (Dict.get i0 (books (lib st))) as [br0|]; simpl; [|done].
    destruct (book_objs (heap st) !! br0) as [b0|]; simpl; [|done].
    destruct (is_borrowed b0); simpl; intros [= <- <-];
      [right; by apply Hkeep|].
    destruct (decide (i0 = i)) as [->|Hne]; [by left|].
    right. apply Hkeep. simpl. by rewrite DictFacts.get_del_ne.
  - right. apply Hkeep. revert Hs. unfold Library_register_user.
    destruct (Dict.mem _ _); simpl; by intros [= <- <-].
  - right. apply Hkeep.
    apply Library_borrow_book_inv in Hs
      as [[_ ->]|[_ (? & ? & ? & ? & _ & _ & _ & _ & _ & ->)]]; done.
  - right. apply Hkeep.
    apply Library_return_book_inv in Hs as [-> _]. done.
Qed.

Lemma book_stays_unless_removed_witness :
  step demo_state (ReturnBook "2023001" "9787115428028")
    = Some (PyBool true,
            default demo_state
              (snd <$> step demo_state (ReturnBook "2023001" "9787115428028"))) ∧
  find_book demo_state "9787115428028" =
    Some (mkBook "Python Crash Course" "Eric Matthes" "9787115428028" true (Some 0)) ∧
  ((ReturnBook "2023001" "9787115428028" = RemoveBook "9787115428028" ∧
    PyBool true = PyBool true) ∨
   ∃ b', find_book
           (default demo_state
              (snd <$> step demo_state (ReturnBook "2023001" "9787115428028")))
           "9787115428028" = Some b' ∧
         title b' = "Python Crash Course" ∧ author b' = "Eric Matthes" ∧
         isbn b' = "9787115428028").
Proof.
  split; [reflexivity|]. split; [reflexivity|].
  exact (book_stays_unless_removed demo_state
           (ReturnBook "2023001" "9787115428028") (PyBool true) _
           "9787115428028" _ eq_refl eq_refl).
Defined.

(** ** Searching by a field *)

Lemma startswith_refl s : startswith s s = true.
Proof. induction s as [|a s IH]; simpl; [done|]. by rewrite decide_True. Qed.

Lemma occurs_in_refl s : occurs_in s s.
Proof.
  apply str_in_spec. destruct s; simpl; [done|].
  by rewrite decide_True, startswith_refl.
Qed.

(** X15: in every reachable state, searching for the title, the author or
    the isbn of a book of the catalog returns a list that contains this
    book, whatever the lower-casing function. *)
Theorem search_finds_by_field (lower : string → string) st i br b keyword :
  reachable st →
  Dict.get i (books (lib st)) = Some br →
  book_objs (heap st) !! br = Some b →
  keyword = title b ∨ keyword = author b ∨ keyword = i →
  ∃ results, Library_search_book lower st keyword = Some results ∧ br ∈ results.
Proof.
  intros [_ [Hbk _ _ _]]%reachable_consistent Hg Hb Hkw.
  exists (search_spec lower st keyword). split.
  - unfold Library_search_book, search_spec. by rewrite search_loop_spec.
  - unfold search_spec. apply list_elem_of_fmap. exists (i, br).
    split; [done|]. apply list_elem_of_filter.
    split; [|by apply DictFacts.get_elem_of].
    unfold selected. simpl. rewrite Hb. unfold matches_keyword.
    destruct (Hbk _ _ (DictFacts.get_elem_of _ _ _ Hg)) as (b0 & Hb0 & Hisbn).
    assert (b0 = b) as -> by congruence.
    destruct Hkw as [->|[->| ->]].
    + left. apply occurs_in_refl.
    + right. left. apply occurs_in_refl.
    + right. right. rewrite Hisbn. apply occurs_in_refl.
Qed.

Lemma search_finds_by_field_witness :
  reachable demo_state ∧
  Dict.get "9787115454157" (books (lib demo_state)) = Some 1 ∧
  book_objs (heap demo_state) !! 1 =
    Some (mkBook "Fluent Python" "Luciano Ramalho" "9787115454157" true (Some 1)) ∧
  ("Luciano Ramalho" = "Fluent Python" ∨ "Luciano Ramalho" = "Luciano Ramalho" ∨
   "Luciano Ramalho" = "9787115454157") ∧
  ∃ results, Library_search_book lower_ascii demo_state "Luciano Ramalho"
               = Some results ∧ 1 ∈ results.
Proof.
  assert (Hk : "Luciano Ramalho" = "Fluent Python" ∨
               "Luciano Ramalho" = "Luciano Ramalho" ∨
               "Luciano Ramalho" = "9787115454157") by (right; left; reflexivity).
  split; [exact demo_reachable|]. split; [reflexivity|]. split; [reflexivity|].
  split; [exact Hk|].
  exact (search_finds_by_field lower_ascii demo_state "9787115454157" 1 _ _
           demo_reachable eq_refl eq_refl Hk).
Defined.

(** X20: in every reachable state, once [remove_book] has returned [True]
    for an isbn, no [search_book] returns the book that was registered
    under it, whatever the keyword. *)
Theorem removed_book_not_found (lower : string → string) st i br st' keyword results :
  reachable st →
  Dict.get i (books (lib st)) = Some br →
  Library_remove_book st i = Some (PyBool true, st') →
  Library_search_book lower st' keyword = Some results →
  br ∉ results.
Proof.
  intros Hr Hg Hrm Hs.
  assert (Hr' : reachable st') by (by eapply (reachable_step st (RemoveBook i))).
  pose proof (reachable_consistent _ Hr) as [_ [Hbk _ _ _]].
  pose proof (reachable_consistent _ Hr') as [_ [Hbk' _ _ _]].
  unfold Library_search_book in Hs. rewrite search_loop_spec in Hs by done.
  injection Hs as <-. simpl.
  intros ([k r] & Heq & [_ Hin]%list_elem_of_filter)%list_elem_of_fmap.
  simpl in Heq. subst r.
  assert (books (lib st') = Dict.del i (books (lib st))) as Hd.
  { revert Hrm. unfold Library_remove_book, Dict.delitem.
    destruct (Dict.mem i (books (lib st))); simpl; [|done].
    rewrite Hg. simpl.
    destruct (book_objs (heap st) !! br) as [b|]; simpl; [|done].
    destruct (is_borrowed b); simpl; [done|]. by intros [= <-]. }
  unfold Dict.items in Hin. rewrite Hd in Hin.
  apply DictFacts.elem_of_del in Hin as [Hin Hne].
  destruct (Hbk _ _ Hin) as (b1 & Hb1 & Hk1).
  destruct (Hbk _ _ (DictFacts.get_elem_of _ _ _ Hg)) as (b2 & Hb2 & Hk2).
  congruence.
Qed.

Lemma removed_book_not_found_witness :
  reachable demo_state ∧
  Dict.get "9787111407010" (books (lib demo_state)) = Some 2 ∧
  Library_remove_book demo_state "9787111407010"
    = Some (PyBool true,
            default demo_state
              (snd <$> Library_remove_book demo_state "9787111407010")) ∧
  Library_search_book lower_ascii
    (default demo_state (snd <$> Library_remove_book demo_state "9787111407010"))
    "" = Some [0; 1] ∧
  2 ∉ [0; 1].
Proof.
  split; [exact demo_reachable|]. split; [reflexivity|]. split; [reflexivity|].
  split; [reflexivity|].
  exact (removed_book_not_found lower_ascii demo_state "9787111407010" 2 _ ""
           [0; 1] demo_reachable eq_refl eq_refl eq_refl).
Defined.

(** X21: in every reachable state [check_book_availability] answers [False]
    for an isbn of the catalog exactly when some registered user has the
    book in his [borrowed_books]. *)
Theorem unavailable_iff_held st i br :
  reachable st →
  Dict.get i (books (lib st)) = Some br →
  Library_check_book_availability st i = Some (PyBool false) ↔
  ∃ c u, find_user st c = Some u ∧ br ∈ borrowed_books u.
Proof.
  intros Hr Hg. pose proof (reachable_linked _ Hr) as [Hho _ Hre _].
  apply reachable_consistent in Hr as [[_ _ Hheld Hflag] [Hbk _ _ _]].
  destruct (Hbk _ _ (DictFacts.get_elem_of _ _ _ Hg)) as (b & Hb & _).
  unfold Library_check_book_availability, Dict.mem. rewrite Hg. simpl.
  rewrite Hb. simpl. unfold Book_is_available. split.
  - intros [= Hav]. assert (Hl : is_borrowed b = true) by by destruct (is_borrowed b).
    destruct (proj1 (Hflag _ _ Hb) Hl) as [ur Hbo].
    destruct (Hho _ _ _ Hb Hbo) as (u & Hu & Hin).
    exists (card_id u), u. split; [|done].
    unfold find_user. by rewrite (Hre _ _ Hu).
  - intros (c & u & Hu & Hin). unfold find_user in Hu.
    destruct (Dict.get c (users (lib st))) as [ur|]; simpl in Hu; [|done].
    destruct (Hheld _ _ _ Hu Hin) as (b0 & Hb0 & Hl & _).
    assert (b0 = b) as -> by congruence. by rewrite Hl.
Qed.

Lemma unavailable_iff_held_witness :
  reachable demo_state ∧
  Dict.get "9787115428028" (books (lib demo_state)) = Some 0 ∧
  (Library_check_book_availability demo_state "9787115428028"
     = Some (PyBool false) ↔
   ∃ c u, find_user demo_state c = Some u ∧ 0 ∈ borrowed_books u).
Proof.
  split; [exact demo_reachable|]. split; [reflexivity|].
  exact (unavailable_iff_held demo_state "9787115428028" 0 demo_reachable eq_refl).
Defined.
